(** * Transaction data model of nil/internal/types/transaction.go

    A shallow embedding of the transaction types, their flag arithmetic,
    the fee computation, the conversions between the three transaction
    shapes, the hashing entry points and the JSON form of the flag set,
    followed by the properties of the specification. *)

From Stdlib Require Import String Ascii.
From Stdlib Require Import NArith Bool List Lia Permutation.
From Stdlib.Strings Require Byte.
Import ListNotations.
Open Scope N_scope.

(** ** Primitive types *)

Definition byte := Byte.byte.
Definition bytes := list byte.

(** [uint8], [uint64]: unsigned machine integers, kept as [N]; every
    operation that could leave the width reduces modulo it. *)
Definition uint8 := N.
Definition uint64 := N.
Definition wrap8 (n : N) : uint8 := n mod 256.

Definition Seqno := uint64.
Definition TransactionIndex := uint64.
Definition ChainId := uint64.
Definition DefaultChainId : ChainId := 0.

(** Modelled from the spec: [Value], declared outside the sources, is an
    arbitrary-precision non-negative integer with [Add], [Cmp], [IsZero]
    and a zero constructor. *)
Definition Value := N.
Definition NewZeroValue : Value := 0.
Definition Value0 : Value := 0.
Definition Value_Add (a b : Value) : Value := a + b.
Definition Value_Cmp (a b : Value) : comparison := a ?= b.
Definition Value_IsZero (a : Value) : bool := a =? 0.

(** [Cmp(..) > 0] as the code tests it. *)
Definition cmp_gt0 (c : comparison) : bool :=
  match c with Gt => true | _ => false end.

(** Modelled from the spec: [Address] is an opaque 20-byte identity; its
    shard projection is a parameter of the development (section
    [Sharding]). [Code] is an opaque byte sequence. *)
Definition Address := bytes.
Definition Code := bytes.
Definition ShardId := N.
Definition Hash := bytes.

Module TokenBalance.
Record t := mk { Token : Address; Balance : Value }.
End TokenBalance.

Module AsyncRequestInfo.
Record t := mk { Id : uint64; Caller : Address }.
End AsyncRequestInfo.

(** ** Kinds *)

Definition TransactionKind := uint8.
Definition ExecutionTransactionKind : TransactionKind := 0.
Definition DeployTransactionKind : TransactionKind := 1.
Definition RefundTransactionKind : TransactionKind := 2.
Definition ResponseTransactionKind : TransactionKind := 3.

(** ** Bit flags *)

(** Modelled from the spec: the generic bitset [BitFlags[uint8]] (declared
    outside the sources) over a small unsigned integer, with bit get, set
    and clear. *)
Record BitFlags := mkBits { Bits : uint8 }.

Definition GetBit (m : BitFlags) (bit : N) : bool := N.testbit (Bits m) bit.
Definition SetBit (m : BitFlags) (bit : N) : BitFlags :=
  mkBits (wrap8 (N.lor (Bits m) (N.shiftl 1 bit))).
Definition ClearBit (m : BitFlags) (bit : N) : BitFlags :=
  mkBits (N.ldiff (Bits m) (N.shiftl 1 bit)).
Definition Clear (m : BitFlags) : BitFlags := mkBits 0.
Definition NewBitFlags (flags : list N) : BitFlags :=
  fold_left SetBit flags (mkBits 0).

Definition TransactionFlags := BitFlags.
Definition NewTransactionFlagsFromBits (bits : uint8) : TransactionFlags :=
  mkBits bits.

Definition TransactionFlagInternal : N := 0.
Definition TransactionFlagDeploy : N := 1.
Definition TransactionFlagRefund : N := 2.
Definition TransactionFlagBounce : N := 3.
Definition TransactionFlagResponse : N := 4.

Definition Flags_IsInternal (m : TransactionFlags) := GetBit m TransactionFlagInternal.
Definition Flags_IsDeploy (m : TransactionFlags) := GetBit m TransactionFlagDeploy.
Definition Flags_IsRefund (m : TransactionFlags) := GetBit m TransactionFlagRefund.
Definition Flags_IsBounce (m : TransactionFlags) := GetBit m TransactionFlagBounce.
Definition Flags_IsResponse (m : TransactionFlags) := GetBit m TransactionFlagResponse.

Definition NewTransactionFlags (flags : list N) : TransactionFlags :=
  NewBitFlags flags.

(** [TransactionFlagsFromKind]: the slice of positions is built first, the
    switch has no default, so a kind outside the four constants adds none. *)
Definition TransactionFlagsFromKind (internal : bool) (kind : TransactionKind)
  : TransactionFlags :=
  let flags := [] in
  let flags := if internal then flags ++ [TransactionFlagInternal] else flags in
  let flags :=
    if kind =? DeployTransactionKind then flags ++ [TransactionFlagDeploy]
    else if kind =? RefundTransactionKind then flags ++ [TransactionFlagRefund]
    else if kind =? ResponseTransactionKind then flags ++ [TransactionFlagResponse]
    else flags in
  NewTransactionFlags flags.

(** ** The three transaction shapes *)

Module FeePack.
Record t := mk {
  FeeCredit : Value;
  MaxPriorityFeePerGas : Value;
  MaxFeePerGas : Value }.
End FeePack.

Definition NewFeePack : FeePack.t :=
  FeePack.mk NewZeroValue NewZeroValue NewZeroValue.

Module TransactionDigest.
Record t := mk {
  Flags : TransactionFlags;
  FeePack : FeePack.t;
  To : Address;
  ChainId : ChainId;
  Seqno : Seqno;
  Data : Code }.
End TransactionDigest.

Module Transaction.
Record t := mk {
  Digest : TransactionDigest.t;
  From : Address;
  TxId : TransactionIndex;
  RefundTo : Address;
  BounceTo : Address;
  Value : Value;
  RequestId : uint64;
  Token : list TokenBalance.t;
  RequestChain : list AsyncRequestInfo.t;
  Signature : bytes }.

(** Promoted fields of the embedded digest. *)
Definition Flags (m : t) := TransactionDigest.Flags (Digest m).
Definition FeePack (m : t) := TransactionDigest.FeePack (Digest m).
Definition To (m : t) := TransactionDigest.To (Digest m).
Definition ChainId (m : t) := TransactionDigest.ChainId (Digest m).
Definition Seqno (m : t) := TransactionDigest.Seqno (Digest m).
Definition Data (m : t) := TransactionDigest.Data (Digest m).
Definition FeeCredit (m : t) := FeePack.FeeCredit (FeePack m).
Definition MaxPriorityFeePerGas (m : t) := FeePack.MaxPriorityFeePerGas (FeePack m).
Definition MaxFeePerGas (m : t) := FeePack.MaxFeePerGas (FeePack m).
End Transaction.

Module ExternalTransaction.
Record t := mk {
  Kind : TransactionKind;
  FeePack : FeePack.t;
  To : Address;
  ChainId : ChainId;
  Seqno : Seqno;
  Data : Code;
  AuthData : bytes }.
End ExternalTransaction.

Module InternalTransactionPayload.
Record t := mk {
  Kind : TransactionKind;
  Bounce : bool;
  FeeCredit : Value;
  ForwardKind : uint64;
  To : Address;
  RefundTo : Address;
  BounceTo : Address;
  Value : Value;
  Data : Code;
  RequestId : uint64;
  Token : list TokenBalance.t }.
End InternalTransactionPayload.

(** ** Errors and panics *)

(** The error values the file creates, one constructor per message. *)
Inductive error :=
| ErrInternalRoles      (* internal transaction cannot be deploy, refund, bounce or async at the same time *)
| ErrExternalRoles      (* external transaction cannot be bounce, refund or async *)
| ErrMainShardGate      (* transaction to main shard is not allowed from a regular shard *)
| ErrMaxFeeBelowBase (maxFeePerGas baseFeePerGas : Value)
                        (* max fee per gas is less than base fee per gas: %s < %s *)
| ErrJSON               (* json.Unmarshal failed *)
| ErrSign.              (* crypto.Sign failed *)

(** A computation that either returns or panics. *)
Inductive outcome (A : Type) :=
| Ret (a : A)
| Panic (msg : string).
Arguments Ret {A} a.
Arguments Panic {A} msg.

Definition obind {A B} (c : outcome A) (k : A -> outcome B) : outcome B :=
  match c with Ret a => k a | Panic msg => Panic msg end.

(** ** Transaction predicates *)

Definition IsInternal (m : Transaction.t) : bool :=
  GetBit (Transaction.Flags m) TransactionFlagInternal.
Definition IsExternal (m : Transaction.t) : bool := negb (IsInternal m).
Definition IsExecution (m : Transaction.t) : bool :=
  negb (Flags_IsDeploy (Transaction.Flags m)) && negb (Flags_IsRefund (Transaction.Flags m)).
Definition IsBounce (m : Transaction.t) : bool := Flags_IsBounce (Transaction.Flags m).
Definition IsDeploy (m : Transaction.t) : bool := Flags_IsDeploy (Transaction.Flags m).
Definition IsRefund (m : Transaction.t) : bool := Flags_IsRefund (Transaction.Flags m).
Definition IsResponse (m : Transaction.t) : bool := Flags_IsResponse (Transaction.Flags m).
Definition IsRequestOrResponse (m : Transaction.t) : bool :=
  negb (Transaction.RequestId m =? 0).
Definition IsRequest (m : Transaction.t) : bool :=
  IsRequestOrResponse m && negb (IsResponse m).

Section Sharding.
(** [Address.ShardId()] and [ShardId.IsMainShard()] are declared outside
    the sources; the development is parametric in them. *)
Variable Address_ShardId : Address -> ShardId.
Variable IsMainShard : ShardId -> bool.

Definition IsSystem (m : Transaction.t) : bool :=
  IsMainShard (Address_ShardId (Transaction.To m)).

(** [VerifyFlags]: [None] is the nil error. [gate] is the statement after
    the role checks, reached when neither of them returned. *)
Definition VerifyFlags (m : Transaction.t) : option error :=
  let gate :=
    if IsMainShard (Address_ShardId (Transaction.To m))
       && negb (IsMainShard (Address_ShardId (Transaction.From m)))
    then Some ErrMainShardGate
    else None in
  if IsInternal m then
    let num := 0 in
    let num := if IsDeploy m then num + 1 else num in
    let num := if IsRefund m then num + 1 else num in
    let num := if IsBounce m then num + 1 else num in
    let num := if IsRequestOrResponse m then num + 1 else num in
    if 1 <? num then Some ErrInternalRoles else gate
  else if IsRefund m || IsBounce m || IsRequestOrResponse m then
    Some ErrExternalRoles
  else gate.

End Sharding.

(** ** Gas price *)

(** [TransactionGasPrice] returns the pair (value, error) of the code. *)
Definition TransactionGasPrice (m : Transaction.t) (baseFeePerGas : Value)
  : Value * option error :=
  let gasPrice := Value_Add baseFeePerGas (Transaction.MaxPriorityFeePerGas m) in
  if negb (Value_IsZero (Transaction.MaxFeePerGas m))
     && cmp_gt0 (Value_Cmp gasPrice (Transaction.MaxFeePerGas m))
  then
    if cmp_gt0 (Value_Cmp baseFeePerGas (Transaction.MaxFeePerGas m)) then
      (Value0, Some (ErrMaxFeeBelowBase (Transaction.MaxFeePerGas m) baseFeePerGas))
    else (Transaction.MaxFeePerGas m, None)
  else (gasPrice, None).

(** ** Conversions *)

(** The zero values Go gives to the fields a composite literal leaves out. *)
Definition zeroAddress : Address := repeat Byte.x00 20.
Definition zeroFlags : TransactionFlags := mkBits 0.

Definition setFlags (f : TransactionFlags) (m : Transaction.t) : Transaction.t :=
  let d := Transaction.Digest m in
  Transaction.mk
    (TransactionDigest.mk f (TransactionDigest.FeePack d) (TransactionDigest.To d)
       (TransactionDigest.ChainId d) (TransactionDigest.Seqno d)
       (TransactionDigest.Data d))
    (Transaction.From m) (Transaction.TxId m) (Transaction.RefundTo m)
    (Transaction.BounceTo m) (Transaction.Value m) (Transaction.RequestId m)
    (Transaction.Token m) (Transaction.RequestChain m) (Transaction.Signature m).

Definition setSignature (sig : bytes) (m : Transaction.t) : Transaction.t :=
  Transaction.mk (Transaction.Digest m)
    (Transaction.From m) (Transaction.TxId m) (Transaction.RefundTo m)
    (Transaction.BounceTo m) (Transaction.Value m) (Transaction.RequestId m)
    (Transaction.Token m) (Transaction.RequestChain m) sig.

Definition setAuthData (sig : bytes) (x : ExternalTransaction.t)
  : ExternalTransaction.t :=
  ExternalTransaction.mk (ExternalTransaction.Kind x)
    (ExternalTransaction.FeePack x) (ExternalTransaction.To x)
    (ExternalTransaction.ChainId x) (ExternalTransaction.Seqno x)
    (ExternalTransaction.Data x) sig.

(** [Transaction.toExternal]: panics on an internal transaction. *)
Definition toExternal (m : Transaction.t) : outcome ExternalTransaction.t :=
  if IsInternal m then
    Panic "cannot convert internal transaction to external transaction"
  else
    let kind :=
      if IsDeploy m then DeployTransactionKind
      else if IsRefund m then RefundTransactionKind
      else ExecutionTransactionKind in
    Ret (ExternalTransaction.mk kind (Transaction.FeePack m) (Transaction.To m)
           (Transaction.ChainId m) (Transaction.Seqno m) (Transaction.Data m)
           (Transaction.Signature m)).

(** [InternalTransactionPayload.ToTransaction]. *)
Definition InternalTransactionPayload_ToTransaction
  (m : InternalTransactionPayload.t) (from : Address) (seqno : Seqno)
  : Transaction.t :=
  let txn :=
    Transaction.mk
      (TransactionDigest.mk
         (TransactionFlagsFromKind true (InternalTransactionPayload.Kind m))
         (FeePack.mk (InternalTransactionPayload.FeeCredit m) NewZeroValue NewZeroValue)
         (InternalTransactionPayload.To m)
         0
         seqno
         (InternalTransactionPayload.Data m))
      from
      0
      (InternalTransactionPayload.RefundTo m)
      (InternalTransactionPayload.BounceTo m)
      (InternalTransactionPayload.Value m)
      (InternalTransactionPayload.RequestId m)
      (InternalTransactionPayload.Token m)
      []
      [] in
  if InternalTransactionPayload.Bounce m then
    setFlags (SetBit (Transaction.Flags txn) TransactionFlagBounce) txn
  else txn.

(** [ExternalTransaction.ToTransaction]. *)
Definition ExternalTransaction_ToTransaction (m : ExternalTransaction.t)
  : Transaction.t :=
  Transaction.mk
    (TransactionDigest.mk
       (TransactionFlagsFromKind false (ExternalTransaction.Kind m))
       (ExternalTransaction.FeePack m)
       (ExternalTransaction.To m)
       (ExternalTransaction.ChainId m)
       (ExternalTransaction.Seqno m)
       (ExternalTransaction.Data m))
    (ExternalTransaction.To m)
    0 zeroAddress zeroAddress 0 0 [] []
    (ExternalTransaction.AuthData m).

(** ** Canonical binary encoding *)

(** The canonical encoding is Ethereum's Recursive Length Prefix. Its
    encoder is a library outside the sources; the definitions below follow
    the description the specification gives of it. *)

(** The byte with a given value below 256. *)
Definition byte_of_N (n : N) : byte :=
  match Byte.of_N n with Some b => b | None => Byte.x00 end.

(** Base-256 digits, least significant first; [fuel] bounds their number. *)
Fixpoint le_digits (fuel : nat) (n : N) : bytes :=
  match fuel with
  | O => []
  | S fuel' =>
      if n =? 0 then [] else byte_of_N (n mod 256) :: le_digits fuel' (n / 256)
  end.

(** Shortest big-endian form of an unsigned integer; zero is the empty string. *)
Definition be_bytes (n : N) : bytes :=
  rev (le_digits (N.to_nat (N.size n)) n).

(** The number a big-endian byte string stands for. *)
Definition be_value (b : bytes) : N :=
  fold_left (fun acc x => acc * 256 + Byte.to_N x) b 0.

(** The value read from [b] after [acc] has been read. *)
Definition be_from (acc : N) (b : bytes) : N :=
  fold_left (fun acc x => acc * 256 + Byte.to_N x) b acc.

Definition blen (b : bytes) : N := N.of_nat (List.length b).

(** Modelled from the spec: the length prefix of an item. A payload shorter
    than 56 bytes has its length added to the first byte; a longer one has
    the length of its length there, followed by the length in big-endian
    form. [base] is 0x80 for a byte string and 0xc0 for a list. *)
Definition rlp_header (base len : N) : bytes :=
  if len <? 56 then [byte_of_N (base + len)]
  else
    let l := be_bytes len in
    byte_of_N (base + 55 + blen l) :: l.

(** Modelled from the spec: a byte sequence with its length prefix; a
    single byte below 0x80 is its own encoding. *)
Definition rlp_string (b : bytes) : bytes :=
  match b with
  | [x] => if Byte.to_N x <? 128 then [x] else rlp_header 128 1 ++ b
  | _ => rlp_header 128 (blen b) ++ b
  end.

(** Modelled from the spec: an unsigned integer as its shortest big-endian
    byte string. *)
Definition rlp_uint (n : N) : bytes := rlp_string (be_bytes n).

(** Modelled from the spec: a struct as the list of its encoded fields in
    declaration order, a slice as the list of its encoded elements. *)
Definition rlp_list (items : list bytes) : bytes :=
  let payload := concat items in
  rlp_header 192 (blen payload) ++ payload.

(** Modelled from the spec: the trailing fields tagged optional, of which
    the final run of empty ones is left out. Each field comes with its
    emptiness test. *)
Fixpoint rlp_optional (fields : list (bool * bytes)) : list bytes :=
  match fields with
  | [] => []
  | (empty, e) :: rest =>
      match rlp_optional rest with
      | [] => if empty then [] else [e]
      | tl => e :: tl
      end
  end.

Definition isNil {A} (l : list A) : bool :=
  match l with [] => true | _ => false end.

(** [TransactionFlags.EncodeRLP]: the bits written as a uint64. *)
Definition TransactionFlags_EncodeRLP (v : TransactionFlags) : bytes :=
  rlp_uint (Bits v).

(** The embedded [FeePack] struct: a list of its three values. *)
Definition FeePack_rlp (f : FeePack.t) : bytes :=
  rlp_list [rlp_uint (FeePack.FeeCredit f);
            rlp_uint (FeePack.MaxPriorityFeePerGas f);
            rlp_uint (FeePack.MaxFeePerGas f)].

(** [TransactionDigest.MarshalNil]. *)
Definition TransactionDigest_MarshalNil (d : TransactionDigest.t) : bytes :=
  rlp_list [TransactionFlags_EncodeRLP (TransactionDigest.Flags d);
            FeePack_rlp (TransactionDigest.FeePack d);
            rlp_string (TransactionDigest.To d);
            rlp_uint (TransactionDigest.ChainId d);
            rlp_uint (TransactionDigest.Seqno d);
            rlp_string (TransactionDigest.Data d)].

(** The elements of [Token] and of [RequestChain]. *)
Definition TokenBalance_rlp (b : TokenBalance.t) : bytes :=
  rlp_list [rlp_string (TokenBalance.Token b); rlp_uint (TokenBalance.Balance b)].

Definition AsyncRequestInfo_rlp (a : AsyncRequestInfo.t) : bytes :=
  rlp_list [rlp_uint (AsyncRequestInfo.Id a);
            rlp_string (AsyncRequestInfo.Caller a)].

(** [Transaction.MarshalNil]. *)
Definition Transaction_MarshalNil (t : Transaction.t) : bytes :=
  rlp_list
    ([TransactionDigest_MarshalNil (Transaction.Digest t);
      rlp_string (Transaction.From t);
      rlp_uint (Transaction.TxId t);
      rlp_string (Transaction.RefundTo t);
      rlp_string (Transaction.BounceTo t);
      rlp_uint (Transaction.Value t);
      rlp_uint (Transaction.RequestId t)]
     ++ rlp_optional
          [(isNil (Transaction.Token t),
            rlp_list (map TokenBalance_rlp (Transaction.Token t)));
           (isNil (Transaction.RequestChain t),
            rlp_list (map AsyncRequestInfo_rlp (Transaction.RequestChain t)));
           (isNil (Transaction.Signature t),
            rlp_string (Transaction.Signature t))]).

(** [ExternalTransaction.MarshalNil]. *)
Definition ExternalTransaction_MarshalNil (tx : ExternalTransaction.t) : bytes :=
  rlp_list
    ([rlp_uint (ExternalTransaction.Kind tx);
      FeePack_rlp (ExternalTransaction.FeePack tx);
      rlp_string (ExternalTransaction.To tx);
      rlp_uint (ExternalTransaction.ChainId tx);
      rlp_uint (ExternalTransaction.Seqno tx);
      rlp_string (ExternalTransaction.Data tx)]
     ++ rlp_optional
          [(isNil (ExternalTransaction.AuthData tx),
            rlp_string (ExternalTransaction.AuthData tx))]).

(** ** Hashing and signing *)

Section Hashing.
(** Keccak-256, the shard tagging of a hash and the secp256k1 signer are
    declared outside the sources; the development is parametric in them. *)
Variable Address_ShardId : Address -> ShardId.
Variable Keccak256 : bytes -> Hash.
Variable ToShardedHash : Hash -> ShardId -> Hash.
Variable PrivateKey : Type.
Variable crypto_Sign : bytes -> PrivateKey -> bytes * option error.

(** [ExternalTransaction.Hash]. *)
Definition ExternalTransaction_Hash (m : ExternalTransaction.t) : Hash :=
  ToShardedHash (Keccak256 (ExternalTransaction_MarshalNil m))
    (Address_ShardId (ExternalTransaction.To m)).

(** [Transaction.Hash]. *)
Definition Transaction_Hash (m : Transaction.t) : outcome Hash :=
  if IsExternal m then
    obind (toExternal m) (fun x => Ret (ExternalTransaction_Hash x))
  else
    Ret (ToShardedHash (Keccak256 (Transaction_MarshalNil m))
           (Address_ShardId (Transaction.To m))).

(** [ExternalTransaction.SigningHash]: the pair (hash, error). *)
Definition ExternalTransaction_SigningHash (m : ExternalTransaction.t)
  : Hash * option error :=
  let transactionDigest :=
    TransactionDigest.mk
      (TransactionFlagsFromKind false (ExternalTransaction.Kind m))
      (ExternalTransaction.FeePack m)
      (ExternalTransaction.To m)
      (ExternalTransaction.ChainId m)
      (ExternalTransaction.Seqno m)
      (ExternalTransaction.Data m) in
  (Keccak256 (TransactionDigest_MarshalNil transactionDigest), None).

(** [Transaction.SigningHash]. *)
Definition Transaction_SigningHash (m : Transaction.t) : Hash * option error :=
  (Keccak256 (TransactionDigest_MarshalNil (Transaction.Digest m)), None).

(** [ExternalTransaction.Sign]: the receiver after the call and the error. *)
Definition ExternalTransaction_Sign (m : ExternalTransaction.t) (key : PrivateKey)
  : ExternalTransaction.t * option error :=
  match ExternalTransaction_SigningHash m with
  | (_, Some err) => (m, Some err)
  | (hash, None) =>
      match crypto_Sign hash key with
      | (_, Some err) => (m, Some err)
      | (sig, None) => (setAuthData sig m, None)
      end
  end.

(** [Transaction.Sign]: the receiver after the call and the error, or a panic. *)
Definition Transaction_Sign (m : Transaction.t) (key : PrivateKey)
  : outcome (Transaction.t * option error) :=
  obind (toExternal m) (fun ext =>
    match ExternalTransaction_Sign ext key with
    | (_, Some err) => Ret (m, Some err)
    | (ext', None) => Ret (setSignature (ExternalTransaction.AuthData ext') m, None)
    end).

End Hashing.

(** ** Textual form of the flags *)

Definition quote : ascii := "034"%char.
Definition backslash : ascii := "092"%char.
Definition quoted (s : string) : string :=
  String quote (s ++ String quote EmptyString)%string.

(** [TransactionFlags.MarshalJSON]: the text and the (always nil) error. *)
Definition TransactionFlags_MarshalJSON (m : TransactionFlags)
  : string * option error :=
  let res := EmptyString in
  let res := if Flags_IsInternal m then (res ++ quoted "Internal")%string
             else (res ++ quoted "External")%string in
  let res := if Flags_IsDeploy m then (res ++ ", " ++ quoted "Deploy")%string else res in
  let res := if Flags_IsRefund m then (res ++ ", " ++ quoted "Refund")%string else res in
  let res := if Flags_IsBounce m then (res ++ ", " ++ quoted "Bounce")%string else res in
  let res := if Flags_IsResponse m then (res ++ ", " ++ quoted "Response")%string else res in
  (("[" ++ res ++ "]")%string, None).

(** [json.Unmarshal] into a slice of strings belongs to Go's standard
    library. The model reads the input one byte at a time: white space, the
    literal null (at top level: the nil slice; as an element: the empty
    string), and an array of string literals with their escapes; a u-escape
    gives the UTF-8 bytes of its code point, a surrogate pair one code
    point, a lone surrogate U+FFFD. Anything else (a syntax error, or a
    value of another type) is an error. Bytes above 0x7F inside a literal
    are copied as they are, where the library would replace an ill-formed
    UTF-8 sequence by U+FFFD; neither form is one of the five tokens. *)
Inductive jstate :=
| JStart                                   (* before the top-level value *)
| JEnd                                     (* after it *)
| JNull (top : bool) (k : nat)             (* k letters of null read *)
| JArrOpen                                 (* after the opening bracket *)
| JValue                                   (* after a comma *)
| JAfter                                   (* after an element *)
| JStr (acc : list ascii)                  (* in a literal, bytes reversed *)
| JEsc (acc : list ascii)                  (* after a backslash *)
| JHex (acc : list ascii) (k : nat) (v : N)
| JPend (rr : N) (acc : list ascii)        (* a surrogate was read *)
| JPendEsc (rr : N) (acc : list ascii)
| JPendHex (rr : N) (acc : list ascii) (k : nat) (v : N).

Definition isSpace (c : ascii) : bool :=
  let n := N_of_ascii c in
  (n =? 32) || (n =? 9) || (n =? 10) || (n =? 13).

Definition hexval (c : ascii) : option N :=
  let n := N_of_ascii c in
  if (48 <=? n) && (n <=? 57) then Some (n - 48)
  else if (97 <=? n) && (n <=? 102) then Some (n - 87)
  else if (65 <=? n) && (n <=? 70) then Some (n - 55)
  else None.

(** UTF-8 bytes of a code point, in reverse order. *)
Definition utf8_rev (r : N) : list ascii :=
  if r <? 128 then [ascii_of_N r]
  else if r <? 2048 then
    [ascii_of_N (128 + r mod 64); ascii_of_N (192 + r / 64)]
  else if r <? 65536 then
    [ascii_of_N (128 + r mod 64); ascii_of_N (128 + (r / 64) mod 64);
     ascii_of_N (224 + r / 4096)]
  else
    [ascii_of_N (128 + r mod 64); ascii_of_N (128 + (r / 64) mod 64);
     ascii_of_N (128 + (r / 4096) mod 64); ascii_of_N (240 + r / 262144)].

Definition replacementChar : N := 65533.
Definition isSurrogate (r : N) : bool := (55296 <=? r) && (r <? 57344).
Definition isHighSurrogate (r : N) : bool := (55296 <=? r) && (r <? 56320).
Definition isLowSurrogate (r : N) : bool := (56320 <=? r) && (r <? 57344).

Definition string_of_rev (acc : list ascii) : string :=
  fold_left (fun s c => String c s) acc EmptyString.

(** A byte inside a literal. *)
Definition strChar (acc : list ascii) (out : list string) (c : ascii)
  : option (jstate * list string) :=
  if Ascii.eqb c quote then Some (JAfter, string_of_rev acc :: out)
  else if Ascii.eqb c backslash then Some (JEsc acc, out)
  else if N_of_ascii c <? 32 then None
  else Some (JStr (c :: acc), out).

(** The byte after a backslash. *)
Definition escChar (acc : list ascii) (out : list string) (c : ascii)
  : option (jstate * list string) :=
  let n := N_of_ascii c in
  if (n =? 34) || (n =? 92) || (n =? 47) then Some (JStr (c :: acc), out)
  else if n =? 98 then Some (JStr (ascii_of_N 8 :: acc), out)
  else if n =? 102 then Some (JStr (ascii_of_N 12 :: acc), out)
  else if n =? 110 then Some (JStr (ascii_of_N 10 :: acc), out)
  else if n =? 114 then Some (JStr (ascii_of_N 13 :: acc), out)
  else if n =? 116 then Some (JStr (ascii_of_N 9 :: acc), out)
  else if n =? 117 then Some (JHex acc 0 0, out)
  else None.

(** A u-escape with value [rr] was read in full. *)
Definition escDone (acc : list ascii) (rr : N) : jstate :=
  if isSurrogate rr then JPend rr acc else JStr (utf8_rev rr ++ acc).

(** The start of a value: a string literal or null. *)
Definition valueChar (top : bool) (out : list string) (c : ascii)
  : option (jstate * list string) :=
  if Ascii.eqb c quote then (if top then None else Some (JStr [], out))
  else if N_of_ascii c =? 110 then Some (JNull top 1, out)
  else None.

Definition jstep (st : jstate) (out : list string) (c : ascii)
  : option (jstate * list string) :=
  match st with
  | JStart =>
      if isSpace c then Some (JStart, out)
      else if N_of_ascii c =? 91 then Some (JArrOpen, out)
      else valueChar true out c
  | JEnd => if isSpace c then Some (JEnd, out) else None
  | JNull top k =>
      let want := match k with 1%nat => 117 | _ => 108 end in
      if N_of_ascii c =? want then
        match k with
        | 3%nat => if top then Some (JEnd, out)
                   else Some (JAfter, EmptyString :: out)
        | _ => Some (JNull top (S k), out)
        end
      else None
  | JArrOpen =>
      if isSpace c then Some (JArrOpen, out)
      else if N_of_ascii c =? 93 then Some (JEnd, out)
      else valueChar false out c
  | JValue =>
      if isSpace c then Some (JValue, out) else valueChar false out c
  | JAfter =>
      if isSpace c then Some (JAfter, out)
      else if N_of_ascii c =? 44 then Some (JValue, out)
      else if N_of_ascii c =? 93 then Some (JEnd, out)
      else None
  | JStr acc => strChar acc out c
  | JEsc acc => escChar acc out c
  | JHex acc k v =>
      match hexval c with
      | None => None
      | Some d =>
          match k with
          | 3%nat => Some (escDone acc (v * 16 + d), out)
          | _ => Some (JHex acc (S k) (v * 16 + d), out)
          end
      end
  | JPend rr acc =>
      if Ascii.eqb c backslash then Some (JPendEsc rr acc, out)
      else strChar (utf8_rev replacementChar ++ acc) out c
  | JPendEsc rr acc =>
      if N_of_ascii c =? 117 then Some (JPendHex rr acc 0 0, out)
      else escChar (utf8_rev replacementChar ++ acc) out c
  | JPendHex rr acc k v =>
      match hexval c with
      | None => None
      | Some d =>
          match k with
          | 3%nat =>
              let rr1 := v * 16 + d in
              if isHighSurrogate rr && isLowSurrogate rr1 then
                Some (JStr (utf8_rev (65536 + (rr - 55296) * 1024 + (rr1 - 56320))
                            ++ acc), out)
              else
                Some (escDone (utf8_rev replacementChar ++ acc) rr1, out)
          | _ => Some (JPendHex rr acc (S k) (v * 16 + d), out)
          end
      end
  end.

Fixpoint jrun (st : jstate) (out : list string) (data : string)
  : option (list string) :=
  match data with
  | EmptyString => match st with JEnd => Some (rev out) | _ => None end
  | String c rest =>
      match jstep st out c with
      | None => None
      | Some (st', out') => jrun st' out' rest
      end
  end.

(** [json.Unmarshal(data, &s)] for [s : []string]; [None] is an error. *)
Definition json_Unmarshal (data : string) : option (list string) :=
  jrun JStart [] data.

(** The body of the loop of [UnmarshalJSON]. *)
Definition applyToken (m : TransactionFlags) (v : string) : TransactionFlags :=
  if String.eqb v "Internal" then SetBit m TransactionFlagInternal
  else if String.eqb v "Deploy" then SetBit m TransactionFlagDeploy
  else if String.eqb v "Refund" then SetBit m TransactionFlagRefund
  else if String.eqb v "Bounce" then SetBit m TransactionFlagBounce
  else if String.eqb v "Response" then SetBit m TransactionFlagResponse
  else m.

(** [TransactionFlags.UnmarshalJSON]: the receiver after the call and the
    error. The receiver is cleared before the input is looked at. *)
Definition TransactionFlags_UnmarshalJSON (m : TransactionFlags) (data : string)
  : TransactionFlags * option error :=
  let m := Clear m in
  match json_Unmarshal data with
  | None => (m, Some ErrJSON)
  | Some s => (fold_left applyToken s m, None)
  end.

(** ** Vocabulary of the specification *)

(** How many of the listed conditions hold. *)
Definition countTrue (l : list bool) : nat :=
  length (filter (fun b => b) l).

(** Bit [i] of the flag byte of a transaction. *)
Definition flagBit (m : Transaction.t) (i : N) : bool :=
  N.testbit (Bits (Transaction.Flags m)) i.

(** The four roles of which an internal transaction may carry one. *)
Definition roles (m : Transaction.t) : list bool :=
  [flagBit m 1; flagBit m 2; flagBit m 3; negb (Transaction.RequestId m =? 0)].

(** The three grounds on which the specification rejects a transaction. *)
Definition flagsRejected (shardOf : Address -> ShardId) (isMain : ShardId -> bool)
  (m : Transaction.t) : Prop :=
  (flagBit m 0 = true /\ (2 <= countTrue (roles m))%nat)
  \/ (flagBit m 0 = false /\
      (flagBit m 2 = true \/ flagBit m 3 = true \/ Transaction.RequestId m <> 0))
  \/ (isMain (shardOf (Transaction.To m)) = true /\
      isMain (shardOf (Transaction.From m)) = false).

(** The same four roles, read off a payload before its promotion. *)
Definition payloadRoles (p : InternalTransactionPayload.t) : list bool :=
  [InternalTransactionPayload.Kind p =? DeployTransactionKind;
   InternalTransactionPayload.Kind p =? RefundTransactionKind;
   InternalTransactionPayload.Bounce p;
   negb (InternalTransactionPayload.RequestId p =? 0)].

(** A payload that asks for a deploy and a bounce at once. *)
Definition deployBouncePayload : InternalTransactionPayload.t :=
  InternalTransactionPayload.mk DeployTransactionKind true 1000 0
    (repeat Byte.xcc 20) zeroAddress zeroAddress 0 [Byte.xde; Byte.xad] 0 [].

(** Where the header of an encoded item ends and where the item ends: the
    kind of the item (true for a list), its payload and what follows it.
    Used to take encodings apart in the proofs; it performs none of the
    canonical-form checks of a decoder. *)
Definition rlp_split (e : bytes) : option (bool * bytes * bytes) :=
  match e with
  | [] => None
  | b :: r =>
      let n := Byte.to_N b in
      if n <? 128 then Some (false, [b], r)
      else if n <? 184 then
        let len := N.to_nat (n - 128) in
        Some (false, firstn len r, skipn len r)
      else if n <? 192 then
        let ll := N.to_nat (n - 183) in
        let len := N.to_nat (be_value (firstn ll r)) in
        Some (false, firstn len (skipn ll r), skipn len (skipn ll r))
      else if n <? 248 then
        let len := N.to_nat (n - 192) in
        Some (true, firstn len r, skipn len r)
      else
        let ll := N.to_nat (n - 247) in
        let len := N.to_nat (be_value (firstn ll r)) in
        Some (true, firstn len (skipn ll r), skipn len (skipn ll r))
  end.

(** The ranges of the Go types of the digest fields. *)
Definition wfDigest (d : TransactionDigest.t) : Prop :=
  Bits (TransactionDigest.Flags d) < 2 ^ 8
  /\ FeePack.FeeCredit (TransactionDigest.FeePack d) < 2 ^ 256
  /\ FeePack.MaxPriorityFeePerGas (TransactionDigest.FeePack d) < 2 ^ 256
  /\ FeePack.MaxFeePerGas (TransactionDigest.FeePack d) < 2 ^ 256
  /\ length (TransactionDigest.To d) = 20%nat
  /\ TransactionDigest.ChainId d < 2 ^ 64
  /\ TransactionDigest.Seqno d < 2 ^ 64
  /\ blen (TransactionDigest.Data d) < 2 ^ 63.

(** Stand-ins for the parameters, used to run the examples: the shard of an
    address read from its first two bytes with shard 0 as the main shard, a
    32-byte truncation in place of the hash, no shard tagging, and a signer
    that returns its input. *)
Definition demoShardId (a : Address) : ShardId := be_value (firstn 2 a).
Definition demoIsMainShard (s : ShardId) : bool := s =? 0.
Definition demoHash (b : bytes) : Hash := firstn 32 (b ++ repeat Byte.x00 32).
Definition demoSharded (h : Hash) (s : ShardId) : Hash := h.
Definition demoSign (h : bytes) (key : unit) : bytes * option error := (h, None).

(** An external execution transaction and an internal one. *)
Definition demoExternal : Transaction.t :=
  Transaction.mk
    (TransactionDigest.mk (mkBits 0) NewFeePack (repeat Byte.xbb 20) 1 0 [])
    (repeat Byte.xaa 20) 0 zeroAddress zeroAddress 0 0 [] [] [].
Definition demoExternalDeploy : Transaction.t :=
  Transaction.mk
    (TransactionDigest.mk (mkBits 2) NewFeePack (repeat Byte.xbb 20) 1 0 [])
    (repeat Byte.xaa 20) 0 zeroAddress zeroAddress 0 0 [] [] [].
Definition demoExternalMoved : Transaction.t :=
  Transaction.mk
    (TransactionDigest.mk (mkBits 0) NewFeePack (repeat Byte.xbb 20) 1 0 [])
    (repeat Byte.xcc 20) 5 zeroAddress zeroAddress 9 0 [] [] [Byte.x01].
Definition demoInternal : Transaction.t :=
  Transaction.mk
    (TransactionDigest.mk (mkBits 1) NewFeePack (repeat Byte.xbb 20) 1 0 [])
    (repeat Byte.xaa 20) 0 zeroAddress zeroAddress 0 0 [] [] [].

(** The tokens the specification lists for a flag set: exactly one of
    Internal and External, then Deploy, Refund, Bounce, Response for the
    bits that are set, in this order. *)
Definition flagTokens (f : TransactionFlags) : list string :=
  [if N.testbit (Bits f) 0 then "Internal"%string else "External"%string]
  ++ (if N.testbit (Bits f) 1 then ["Deploy"%string] else [])
  ++ (if N.testbit (Bits f) 2 then ["Refund"%string] else [])
  ++ (if N.testbit (Bits f) 3 then ["Bounce"%string] else [])
  ++ (if N.testbit (Bits f) 4 then ["Response"%string] else []).

(** A JSON array of string literals, separated by a comma and a space. *)
Definition renderArray (tokens : list string) : string :=
  ("[" ++ String.concat ", " (map quoted tokens) ++ "]")%string.

(** The tokens [UnmarshalJSON] acts on. *)
Definition knownToken (v : string) : bool :=
  String.eqb v "Internal" || String.eqb v "Deploy" || String.eqb v "Refund"
  || String.eqb v "Bounce" || String.eqb v "Response".

(** ** Further operations of the file *)

(** The errors of the textual kind parsers; the message names the input. *)
Inductive kindError :=
| ErrUnknownTransactionKind (input : string)   (* unknown TransactionKind: %s *)
| ErrUnknownForwardKind (input : string).      (* unknown ForwardKind: %s *)

(** [TransactionKind.String]: panics on a value outside the four constants. *)
Definition TransactionKind_String (k : TransactionKind) : outcome string :=
  if k =? ExecutionTransactionKind then Ret "ExecutionTransactionKind"%string
  else if k =? DeployTransactionKind then Ret "DeployTransactionKind"%string
  else if k =? RefundTransactionKind then Ret "RefundTransactionKind"%string
  else if k =? ResponseTransactionKind then Ret "ResponseTransactionKind"%string
  else Panic "unknown TransactionKind".

(** [TransactionKind.Set]: the receiver after the call and the error. *)
Definition TransactionKind_Set (k : TransactionKind) (input : string)
  : TransactionKind * option kindError :=
  if String.eqb input "execution" || String.eqb input "ExecutionTransactionKind"
  then (ExecutionTransactionKind, None)
  else if String.eqb input "deploy" || String.eqb input "DeployTransactionKind"
  then (DeployTransactionKind, None)
  else if String.eqb input "refund" || String.eqb input "RefundTransactionKind"
  then (RefundTransactionKind, None)
  else if String.eqb input "response" || String.eqb input "ResponseTransactionKind"
  then (ResponseTransactionKind, None)
  else (k, Some (ErrUnknownTransactionKind input)).

Definition ForwardKind := uint64.
Definition ForwardKindRemaining : ForwardKind := 0.
Definition ForwardKindPercentage : ForwardKind := 1.
Definition ForwardKindValue : ForwardKind := 2.
Definition ForwardKindNone : ForwardKind := 3.

(** [ForwardKind.String]. *)
Definition ForwardKind_String (k : ForwardKind) : outcome string :=
  if k =? ForwardKindRemaining then Ret "ForwardKindRemaining"%string
  else if k =? ForwardKindPercentage then Ret "ForwardKindPercentage"%string
  else if k =? ForwardKindValue then Ret "ForwardKindValue"%string
  else if k =? ForwardKindNone then Ret "ForwardKindNone"%string
  else Panic "unknown ForwardKind".

(** [ForwardKind.Set]. *)
Definition ForwardKind_Set (k : ForwardKind) (input : string)
  : ForwardKind * option kindError :=
  if String.eqb input "remaining" || String.eqb input "ForwardKindRemaining"
  then (ForwardKindRemaining, None)
  else if String.eqb input "percentage" || String.eqb input "ForwardKindPercentage"
  then (ForwardKindPercentage, None)
  else if String.eqb input "value" || String.eqb input "ForwardKindValue"
  then (ForwardKindValue, None)
  else if String.eqb input "none" || String.eqb input "ForwardKindNone"
  then (ForwardKindNone, None)
  else (k, Some (ErrUnknownForwardKind input)).

(** [TransactionFlags.String]. *)
Definition TransactionFlags_String (m : TransactionFlags) : string :=
  let res := EmptyString in
  let res := if Flags_IsInternal m then (res ++ "Internal")%string
             else (res ++ "External")%string in
  let res := if Flags_IsDeploy m then (res ++ ", Deploy")%string else res in
  let res := if Flags_IsRefund m then (res ++ ", Refund")%string else res in
  let res := if Flags_IsBounce m then (res ++ ", Bounce")%string else res in
  let res := if Flags_IsResponse m then (res ++ ", Response")%string else res in
  res.

(** The decoder of the canonical encoding is a library outside the sources,
    as the encoder is. Its callers here only test the error for nil, so the
    model has one error value for all the decoder's errors. *)
Inductive rlpError := ErrRLP.

(** Reading one unsigned integer of at most [maxBytes] bytes from the front
    of the input: the value and the rest of the input, or [None] for an
    error. A single byte below 0x80 is its own value, zero excepted; a short
    string is read big-endian and refused when it is longer than the
    integer type, runs past the input, starts with a zero byte, or is one
    byte below 0x80; a long string or a list is refused. *)
Definition rlp_read_uint (maxBytes : N) (input : bytes) : option (N * bytes) :=
  match input with
  | [] => None
  | b :: r =>
      let n := Byte.to_N b in
      if n <? 128 then (if n =? 0 then None else Some (n, r))
      else if n <? 184 then
        let size := n - 128 in
        if maxBytes <? size then None
        else if blen r <? size then None
        else
          match firstn (N.to_nat size) r with
          | [] => Some (0, r)
          | x :: body =>
              if Byte.to_N x =? 0 then None
              else
                let v := be_value (x :: body) in
                if v <? 128 then None
                else Some (v, skipn (N.to_nat size) r)
          end
      else None
  end.

(** [rlp.DecodeBytes(buf, p)] for [p : *uint64]: the value behind [p] after
    the call and the error. Input left over after the value is an error,
    found after the value has been stored. *)
Definition rlp_DecodeBytes_uint64 (old : uint64) (buf : bytes)
  : uint64 * option rlpError :=
  match rlp_read_uint 8 buf with
  | None => (old, Some ErrRLP)
  | Some (v, []) => (v, None)
  | Some (v, _ :: _) => (v, Some ErrRLP)
  end.

(** [TransactionIndex.MarshalNil]. *)
Definition TransactionIndex_MarshalNil (ti : TransactionIndex)
  : bytes * option rlpError :=
  (rlp_uint ti, None).

(** [TransactionIndex.UnmarshalNil]. *)
Definition TransactionIndex_UnmarshalNil (ti : TransactionIndex) (buf : bytes)
  : TransactionIndex * option rlpError :=
  rlp_DecodeBytes_uint64 ti buf.

(** [TransactionIndex.Bytes]: panics if marshalling fails. *)
Definition TransactionIndex_Bytes (ti : TransactionIndex) : outcome bytes :=
  match TransactionIndex_MarshalNil ti with
  | (res, None) => Ret res
  | (_, Some _) => Panic "rlp"
  end.

(** [TransactionIndex.SetBytes]: panics if unmarshalling fails. *)
Definition TransactionIndex_SetBytes (ti : TransactionIndex) (b : bytes)
  : outcome TransactionIndex :=
  match TransactionIndex_UnmarshalNil ti b with
  | (ti', None) => Ret ti'
  | (_, Some _) => Panic "rlp"
  end.

(** [BytesToTransactionIndex]. *)
Definition BytesToTransactionIndex (b : bytes) : outcome TransactionIndex :=
  TransactionIndex_SetBytes 0 b.

(** [TransactionFlags.DecodeRLP]: the receiver after the call, what is left
    of the stream, and the error. On an error the receiver is not assigned. *)
Definition TransactionFlags_DecodeRLP (v : TransactionFlags) (r : bytes)
  : TransactionFlags * bytes * option rlpError :=
  match rlp_read_uint 1 r with
  | None => (v, r, Some ErrRLP)
  | Some (bits, rest) => (mkBits bits, rest, None)
  end.

(** [TransactionFlags.Value]. *)
Definition TransactionFlags_Value (m : TransactionFlags) : uint8 := Bits m.

(** [NewEmptyTransaction]. *)
Definition NewEmptyTransaction : Transaction.t :=
  Transaction.mk
    (TransactionDigest.mk zeroFlags NewFeePack zeroAddress 0 0 [])
    zeroAddress 0 zeroAddress zeroAddress NewZeroValue 0 [] [] [].

(** The kind [toExternal] reads back from the flags that
    [TransactionFlagsFromKind] builds for kind [k]. *)
Definition readBackKind (k : TransactionKind) : TransactionKind :=
  if k =? DeployTransactionKind then DeployTransactionKind
  else if k =? RefundTransactionKind then RefundTransactionKind
  else ExecutionTransactionKind.

(** The ranges of the Go types of the fields of an external transaction. *)
Definition wfExternal (x : ExternalTransaction.t) : Prop :=
  ExternalTransaction.Kind x < 2 ^ 8
  /\ FeePack.FeeCredit (ExternalTransaction.FeePack x) < 2 ^ 256
  /\ FeePack.MaxPriorityFeePerGas (ExternalTransaction.FeePack x) < 2 ^ 256
  /\ FeePack.MaxFeePerGas (ExternalTransaction.FeePack x) < 2 ^ 256
  /\ length (ExternalTransaction.To x) = 20%nat
  /\ ExternalTransaction.ChainId x < 2 ^ 64
  /\ ExternalTransaction.Seqno x < 2 ^ 64
  /\ blen (ExternalTransaction.Data x) < 2 ^ 62
  /\ blen (ExternalTransaction.AuthData x) < 2 ^ 62.

(** The digest that [Sign] hashes for a transaction without the Internal
    bit: that of its external form. *)
Definition signedDigest (t : Transaction.t) : TransactionDigest.t :=
  TransactionDigest.mk
    (TransactionFlagsFromKind false
       (if IsDeploy t then DeployTransactionKind
        else if IsRefund t then RefundTransactionKind
        else ExecutionTransactionKind))
    (Transaction.FeePack t) (Transaction.To t) (Transaction.ChainId t)
    (Transaction.Seqno t) (Transaction.Data t).

(** [demoExternal] with another sender, index and value. *)
Definition demoExternalOther : Transaction.t :=
  Transaction.mk
    (TransactionDigest.mk (mkBits 0) NewFeePack (repeat Byte.xbb 20) 1 0 [])
    (repeat Byte.xcc 20) 5 zeroAddress zeroAddress 9 0 [] [] [].

(** A transaction without the Internal bit that carries the Response bit. *)
Definition demoExternalResponse : Transaction.t :=
  Transaction.mk
    (TransactionDigest.mk (mkBits 16) NewFeePack (repeat Byte.xbb 20) 1 0 [])
    (repeat Byte.xaa 20) 0 zeroAddress zeroAddress 0 0 [] [] [].

(** Whether a token occurs in a parsed array. *)
Definition occurs (token : string) (s : list string) : bool :=
  existsb (String.eqb token) s.

(** Inputs for the examples of the further properties. *)
Definition demoExt : ExternalTransaction.t :=
  ExternalTransaction.mk DeployTransactionKind (FeePack.mk 10 2 5)
    (repeat Byte.xbb 20) 1 3 [Byte.xde; Byte.xad] [Byte.x01; Byte.x02].
Definition demoExtResponse : ExternalTransaction.t :=
  ExternalTransaction.mk ResponseTransactionKind (FeePack.mk 10 2 5)
    (repeat Byte.xbb 20) 1 3 [Byte.xde; Byte.xad] [].
Definition demoCapped : Transaction.t :=
  Transaction.mk
    (TransactionDigest.mk (mkBits 0) (FeePack.mk 0 2 5) zeroAddress 0 0 [])
    zeroAddress 0 zeroAddress zeroAddress 0 0 [] [] [].

(** * Properties *)

(** Unfolds the predicates of a transaction down to the bits they test. *)
Ltac unfold_predicates :=
  unfold IsExternal, IsInternal, IsDeploy, IsRefund, IsBounce, IsResponse,
    IsRequestOrResponse, Flags_IsInternal, Flags_IsDeploy, Flags_IsRefund,
    Flags_IsBounce, Flags_IsResponse, GetBit, TransactionFlagInternal,
    TransactionFlagDeploy, TransactionFlagRefund, TransactionFlagBounce,
    TransactionFlagResponse in *.

Lemma countTrue_cons (b : bool) (l : list bool) :
  countTrue (b :: l) = ((if b then 1 else 0) + countTrue l)%nat.
Proof. unfold countTrue; simpl; destruct b; reflexivity. Qed.

Lemma FromKind_bits (internal : bool) (kind : TransactionKind) :
  Bits (TransactionFlagsFromKind internal kind) =
  (if internal then 1 else 0) +
  (if kind =? 1 then 2 else if kind =? 2 then 4 else if kind =? 3 then 16 else 0).
Proof.
  unfold TransactionFlagsFromKind, DeployTransactionKind, RefundTransactionKind,
    ResponseTransactionKind.
  destruct internal; destruct (kind =? 1); [reflexivity| |reflexivity|];
    (destruct (kind =? 2); [reflexivity|]); destruct (kind =? 3); reflexivity.
Qed.

Section VerifyFlagsProperties.
Variable Address_ShardId : Address -> ShardId.
Variable IsMainShard : ShardId -> bool.

(** C1. [VerifyFlags] returns an error exactly when (a) the Internal bit is
    set and at least two of Deploy, Refund, Bounce, RequestId <> 0 hold, or
    (b) the Internal bit is clear and one of Refund, Bounce, RequestId <> 0
    holds, or (c) the shard of To is the main shard and the shard of From
    is not; otherwise it returns no error. *)
Theorem VerifyFlags_error_iff (m : Transaction.t) :
  ((exists e, VerifyFlags Address_ShardId IsMainShard m = Some e) <->
   flagsRejected Address_ShardId IsMainShard m)
  /\ (VerifyFlags Address_ShardId IsMainShard m = None <->
      ~ flagsRejected Address_ShardId IsMainShard m).
Proof.
  assert (E : VerifyFlags Address_ShardId IsMainShard m <> None <->
              flagsRejected Address_ShardId IsMainShard m).
  { unfold flagsRejected, VerifyFlags, roles, flagBit. unfold_predicates.
    rewrite !countTrue_cons.
    destruct (N.eqb_spec (Transaction.RequestId m) 0) as [Hq|Hq];
    destruct (N.testbit (Bits (Transaction.Flags m)) 0);
    destruct (N.testbit (Bits (Transaction.Flags m)) 1);
    destruct (N.testbit (Bits (Transaction.Flags m)) 2);
    destruct (N.testbit (Bits (Transaction.Flags m)) 3);
    destruct (IsMainShard (Address_ShardId (Transaction.To m)));
    destruct (IsMainShard (Address_ShardId (Transaction.From m)));
    cbn; unfold countTrue; cbn;
    (split;
     [ intros H;
       first [ exfalso; apply H; reflexivity
             | left; split; [reflexivity | lia]
             | right; left; split; [reflexivity|];
               first [ left; reflexivity | right; left; reflexivity
                     | right; right; assumption ]
             | right; right; split; reflexivity ]
     | intros [[H1 H2]|[[H1 H2]|[H1 H2]]];
       first [ discriminate
             | lia
             | destruct H2 as [H2|[H2|H2]];
               first [discriminate | congruence ] ]
     ]). }
  destruct (VerifyFlags Address_ShardId IsMainShard m) as [e|].
  - split; split.
    + intros _. apply E. discriminate.
    + intros _. exists e. reflexivity.
    + discriminate.
    + intros N. exfalso. apply N, E. discriminate.
  - split; split.
    + intros [e He]. discriminate.
    + intros R. exfalso. apply E in R. apply R. reflexivity.
    + intros _ R. apply E in R. apply R. reflexivity.
    + reflexivity.
Qed.

End VerifyFlagsProperties.

(** C2. [TransactionGasPrice(b)]: with [MaxFeePerGas = 0] the result is
    [b + MaxPriorityFeePerGas]; with [MaxFeePerGas <> 0] and
    [b > MaxFeePerGas] the call fails with the fee-below-base error;
    otherwise the result is [min (b + MaxPriorityFeePerGas) MaxFeePerGas]. *)
Theorem TransactionGasPrice_cases (m : Transaction.t) (b : Value) :
  TransactionGasPrice m b =
  if Transaction.MaxFeePerGas m =? 0 then
    (b + Transaction.MaxPriorityFeePerGas m, None)
  else if Transaction.MaxFeePerGas m <? b then
    (Value0, Some (ErrMaxFeeBelowBase (Transaction.MaxFeePerGas m) b))
  else
    (N.min (b + Transaction.MaxPriorityFeePerGas m) (Transaction.MaxFeePerGas m),
     None).
Proof.
  unfold TransactionGasPrice, Value_IsZero, Value_Cmp, Value_Add, cmp_gt0.
  set (mx := Transaction.MaxFeePerGas m).
  set (pr := Transaction.MaxPriorityFeePerGas m).
  destruct (N.eqb_spec mx 0) as [H0|H0]; cbn [negb andb]; [reflexivity|].
  destruct (N.ltb_spec mx b) as [Hb|Hb].
  - destruct (N.compare_spec (b + pr) mx) as [E|L|G]; try lia.
    destruct (N.compare_spec b mx) as [E'|L'|G']; try lia. reflexivity.
  - destruct (N.compare_spec (b + pr) mx) as [E|L|G].
    + rewrite N.min_l by lia. reflexivity.
    + rewrite N.min_l by lia. reflexivity.
    + destruct (N.compare_spec b mx) as [E'|L'|G']; try lia;
        rewrite N.min_r by lia; reflexivity.
Qed.

(** C3, as stated, fails: promoting a payload with Kind = Deploy and
    Bounce = true gives an internal transaction with both the Deploy and
    the Bounce bit, which [VerifyFlags] rejects. *)
Lemma ToTransaction_roles_counterexample :
  flagBit (InternalTransactionPayload_ToTransaction deployBouncePayload
             (repeat Byte.xaa 20) 7) 0 = true
  /\ countTrue (roles (InternalTransactionPayload_ToTransaction deployBouncePayload
                         (repeat Byte.xaa 20) 7)) = 2%nat
  /\ forall sh ims,
       VerifyFlags sh ims
         (InternalTransactionPayload_ToTransaction deployBouncePayload
            (repeat Byte.xaa 20) 7) = Some ErrInternalRoles.
Proof. repeat split. Qed.

Lemma payload_flag_bits (p : InternalTransactionPayload.t) (from : Address)
  (seqno : Seqno) :
  let t := InternalTransactionPayload_ToTransaction p from seqno in
  flagBit t 0 = true
  /\ flagBit t 1 = (InternalTransactionPayload.Kind p =? DeployTransactionKind)
  /\ flagBit t 2 = (InternalTransactionPayload.Kind p =? RefundTransactionKind)
  /\ flagBit t 3 = InternalTransactionPayload.Bounce p
  /\ flagBit t 4 = (InternalTransactionPayload.Kind p =? ResponseTransactionKind).
Proof.
  unfold InternalTransactionPayload_ToTransaction, flagBit,
    DeployTransactionKind, RefundTransactionKind, ResponseTransactionKind.
  destruct p as [k bo fc fk to rt bt v d rq tk]; cbn -[N.testbit TransactionFlagsFromKind].
  destruct bo; cbn -[N.testbit TransactionFlagsFromKind];
    unfold SetBit, wrap8; cbn -[N.testbit TransactionFlagsFromKind N.lor N.modulo];
    rewrite FromKind_bits;
    (destruct (N.eqb_spec k 1) as [->|H1]; [repeat split|]);
    (destruct (N.eqb_spec k 2) as [->|H2]; [repeat split|]);
    (destruct (N.eqb_spec k 3) as [->|H3]; repeat split).
Qed.

(** C3, amended. For every payload [p], address [from] and [seqno],
    [p.ToTransaction(from, seqno)] keeps To, Data, Value, Token, RequestId,
    RefundTo, BounceTo and the given Seqno and From, has FeeCredit =
    p.FeeCredit and both other fees zero, has the Internal bit set, the
    Bounce bit iff p.Bounce, and the Deploy, Refund and Response bits iff
    the kind is the matching one; [VerifyFlags] rejects its roles exactly
    when at least two of Kind = Deploy, Kind = Refund, Bounce, RequestId
    <> 0 hold of the payload, so the promotion itself does not enforce
    role exclusivity. *)
Theorem ToTransaction_payload (p : InternalTransactionPayload.t)
  (from : Address) (seqno : Seqno) :
  let t := InternalTransactionPayload_ToTransaction p from seqno in
  (Transaction.To t = InternalTransactionPayload.To p
   /\ Transaction.Data t = InternalTransactionPayload.Data p
   /\ Transaction.Value t = InternalTransactionPayload.Value p
   /\ Transaction.Token t = InternalTransactionPayload.Token p
   /\ Transaction.RequestId t = InternalTransactionPayload.RequestId p
   /\ Transaction.RefundTo t = InternalTransactionPayload.RefundTo p
   /\ Transaction.BounceTo t = InternalTransactionPayload.BounceTo p
   /\ Transaction.Seqno t = seqno
   /\ Transaction.From t = from)
  /\ (Transaction.FeeCredit t = InternalTransactionPayload.FeeCredit p
      /\ Transaction.MaxPriorityFeePerGas t = 0
      /\ Transaction.MaxFeePerGas t = 0)
  /\ (flagBit t 0 = true
      /\ flagBit t 3 = InternalTransactionPayload.Bounce p
      /\ flagBit t 1 = (InternalTransactionPayload.Kind p =? DeployTransactionKind)
      /\ flagBit t 2 = (InternalTransactionPayload.Kind p =? RefundTransactionKind)
      /\ flagBit t 4 = (InternalTransactionPayload.Kind p =? ResponseTransactionKind))
  /\ (forall sh ims,
        VerifyFlags sh ims t = Some ErrInternalRoles <->
        (2 <= countTrue (payloadRoles p))%nat).
Proof.
  intros t.
  destruct (payload_flag_bits p from seqno) as (B0 & B1 & B2 & B3 & B4).
  fold t in B0, B1, B2, B3, B4.
  split; [|split; [|split]].
  - unfold t, InternalTransactionPayload_ToTransaction.
    destruct (InternalTransactionPayload.Bounce p); repeat split.
  - unfold t, InternalTransactionPayload_ToTransaction.
    destruct (InternalTransactionPayload.Bounce p); repeat split.
  - repeat split; assumption.
  - intros sh ims.
    assert (Rq : Transaction.RequestId t = InternalTransactionPayload.RequestId p).
    { unfold t, InternalTransactionPayload_ToTransaction.
      destruct (InternalTransactionPayload.Bounce p); reflexivity. }
    unfold VerifyFlags, payloadRoles. unfold_predicates.
    unfold flagBit in B0, B1, B2, B3.
    rewrite B0, B1, B2, B3, Rq, !countTrue_cons.
    destruct (InternalTransactionPayload.Kind p =? DeployTransactionKind);
    destruct (InternalTransactionPayload.Kind p =? RefundTransactionKind);
    destruct (InternalTransactionPayload.Bounce p);
    destruct (InternalTransactionPayload.RequestId p =? 0);
    cbn; unfold countTrue; cbn;
    (split; [intros H | intros H];
     first [ reflexivity | lia | idtac ]);
    destruct (ims (sh (Transaction.To t)) &&
              negb (ims (sh (Transaction.From t)))); try discriminate; lia.
Qed.

(** C6. [x.ToTransaction()] has Flags = TransactionFlagsFromKind(false,
    x.Kind), which is the byte 0x00 for Kind = Execution; From is x.To,
    Signature is x.AuthData, and To, ChainId, Seqno, Data and FeePack are
    those of [x]. *)
Theorem ExternalTransaction_ToTransaction_fields (x : ExternalTransaction.t) :
  let t := ExternalTransaction_ToTransaction x in
  Transaction.Flags t = TransactionFlagsFromKind false (ExternalTransaction.Kind x)
  /\ TransactionFlagsFromKind false ExecutionTransactionKind = mkBits 0
  /\ Transaction.From t = ExternalTransaction.To x
  /\ Transaction.Signature t = ExternalTransaction.AuthData x
  /\ Transaction.To t = ExternalTransaction.To x
  /\ Transaction.ChainId t = ExternalTransaction.ChainId x
  /\ Transaction.Seqno t = ExternalTransaction.Seqno x
  /\ Transaction.Data t = ExternalTransaction.Data x
  /\ Transaction.FeePack t = ExternalTransaction.FeePack x.
Proof. repeat split. Qed.

(** ** Big-endian integers *)

Lemma byte_of_N_to_N (n : N) : n < 256 -> Byte.to_N (byte_of_N n) = n.
Proof.
  intros H. unfold byte_of_N.
  pose proof (Byte.to_of_N_option_map n) as E.
  destruct (N.leb_spec n 255) as [_|]; [|lia].
  destruct (Byte.of_N n); simpl in E; congruence.
Qed.

Lemma byte_to_N_lt (b : byte) : Byte.to_N b < 256.
Proof. pose proof (Byte.to_N_bounded b). lia. Qed.

Lemma byte_to_N_inj (a b : byte) : Byte.to_N a = Byte.to_N b -> a = b.
Proof.
  intros H. pose proof (Byte.of_to_N a) as Ha. rewrite H, Byte.of_to_N in Ha.
  congruence.
Qed.

Lemma be_from_inj (l1 : bytes) :
  forall (l2 : bytes) (a1 a2 : N),
    length l1 = length l2 -> be_from a1 l1 = be_from a2 l2 ->
    a1 = a2 /\ l1 = l2.
Proof.
  induction l1 as [|x1 l1 IH]; intros [|x2 l2] a1 a2 Hl E;
    simpl in Hl; try discriminate.
  - split; [exact E | reflexivity].
  - simpl in E. apply IH in E; [|congruence]. destruct E as [E ->].
    pose proof (byte_to_N_lt x1). pose proof (byte_to_N_lt x2).
    assert (a1 = a2) by lia. subst a2.
    assert (Byte.to_N x1 = Byte.to_N x2) by lia.
    split; [reflexivity | f_equal; apply byte_to_N_inj; assumption].
Qed.

Lemma be_value_inj (l1 l2 : bytes) :
  length l1 = length l2 -> be_value l1 = be_value l2 -> l1 = l2.
Proof. intros Hl E. apply (be_from_inj l1 l2 0 0 Hl E). Qed.

Lemma be_from_bound (l : bytes) :
  forall a, be_from a l < (a + 1) * 256 ^ blen l.
Proof.
  unfold blen.
  induction l as [|x l IH]; intros a.
  - simpl. lia.
  - cbn [be_from fold_left length]. fold (be_from (a * 256 + Byte.to_N x) l).
    specialize (IH (a * 256 + Byte.to_N x)).
    pose proof (byte_to_N_lt x).
    rewrite Nat2N.inj_succ, N.pow_succ_r'.
    nia.
Qed.

Lemma be_value_bound (l : bytes) : be_value l < 256 ^ blen l.
Proof. pose proof (be_from_bound l 0). unfold be_value, be_from in *. lia. Qed.

Lemma be_value_snoc (l : bytes) (x : byte) :
  be_value (l ++ [x]) = be_value l * 256 + Byte.to_N x.
Proof. unfold be_value. rewrite fold_left_app. reflexivity. Qed.

Lemma le_digits_value (fuel : nat) :
  forall n, n < 2 ^ N.of_nat fuel -> be_value (rev (le_digits fuel n)) = n.
Proof.
  induction fuel as [|fuel IH]; intros n Hn.
  - simpl in Hn. simpl. unfold be_value. simpl. lia.
  - cbn [le_digits]. destruct (N.eqb_spec n 0) as [->|Hz]; [reflexivity|].
    cbn [rev]. rewrite be_value_snoc, IH.
    + rewrite byte_of_N_to_N by (apply N.mod_lt; lia).
      pose proof (N.div_mod n 256). lia.
    + rewrite Nat2N.inj_succ, N.pow_succ_r' in Hn.
      apply N.Div0.div_lt_upper_bound.
      assert (2 ^ N.of_nat fuel <> 0) by (apply N.pow_nonzero; lia).
      lia.
Qed.

Lemma be_value_be_bytes (n : N) : be_value (be_bytes n) = n.
Proof.
  unfold be_bytes. apply le_digits_value.
  rewrite N2Nat.id. apply N.size_gt.
Qed.

Lemma be_bytes_inj (n1 n2 : N) : be_bytes n1 = be_bytes n2 -> n1 = n2.
Proof.
  intros E. rewrite <- (be_value_be_bytes n1), <- (be_value_be_bytes n2), E.
  reflexivity.
Qed.

Lemma le_digits_length (k : nat) :
  forall fuel n, n < 256 ^ N.of_nat k -> (length (le_digits fuel n) <= k)%nat.
Proof.
  induction k as [|k IH]; intros fuel n Hn.
  - simpl in Hn. assert (n = 0) by lia. subst n.
    destruct fuel; simpl; lia.
  - destruct fuel as [|fuel]; [simpl; lia|].
    cbn [le_digits]. destruct (n =? 0); [simpl; lia|].
    cbn [length]. apply le_n_S, IH.
    rewrite Nat2N.inj_succ, N.pow_succ_r' in Hn.
    apply N.Div0.div_lt_upper_bound. lia.
Qed.

Lemma be_bytes_length (k : nat) (n : N) :
  n < 256 ^ N.of_nat k -> (length (be_bytes n) <= k)%nat.
Proof.
  intros H. unfold be_bytes. rewrite length_rev. apply le_digits_length, H.
Qed.

Lemma be_bytes_nonempty (n : N) : n <> 0 -> be_bytes n <> [].
Proof.
  intros Hn E. apply Hn. rewrite <- (be_value_be_bytes n), E. reflexivity.
Qed.

(** ** Taking encodings apart *)

Lemma firstn_length_app {A} (a b : list A) : firstn (length a) (a ++ b) = a.
Proof. induction a as [|x a IH]; simpl; [destruct b; reflexivity | now rewrite IH]. Qed.

Lemma skipn_length_app {A} (a b : list A) : skipn (length a) (a ++ b) = b.
Proof. induction a as [|x a IH]; simpl; [reflexivity | exact IH]. Qed.

Lemma blen_to_nat (b : bytes) : N.to_nat (blen b) = length b.
Proof. unfold blen. apply Nat2N.id. Qed.

Lemma be_bytes_len_range (len : N) :
  56 <= len -> len < 2 ^ 64 -> 1 <= blen (be_bytes len) <= 8.
Proof.
  intros Hlo Hhi. unfold blen. split.
  - pose proof (be_bytes_nonempty len ltac:(lia)) as Hne.
    destruct (be_bytes len); [congruence | simpl; lia].
  - pose proof (be_bytes_length 8 len) as H.
    change (256 ^ N.of_nat 8) with (2 ^ 64) in H. specialize (H Hhi). lia.
Qed.

Lemma rlp_split_header (base : N) (payload rest : bytes) :
  base = 128 \/ base = 192 ->
  blen payload < 2 ^ 64 ->
  rlp_split (rlp_header base (blen payload) ++ payload ++ rest)
  = Some (192 <=? base, payload, rest).
Proof.
  intros Hb Hlen. unfold rlp_header.
  destruct (N.ltb_spec (blen payload) 56) as [Hs|Hl].
  - cbn [app rlp_split].
    rewrite byte_of_N_to_N by lia.
    destruct Hb as [-> | ->].
    + destruct (N.ltb_spec (128 + blen payload) 128); [lia|].
      destruct (N.ltb_spec (128 + blen payload) 184); [|lia].
      replace (128 + blen payload - 128) with (blen payload) by lia.
      rewrite blen_to_nat, firstn_length_app, skipn_length_app. reflexivity.
    + destruct (N.ltb_spec (192 + blen payload) 128); [lia|].
      destruct (N.ltb_spec (192 + blen payload) 184); [lia|].
      destruct (N.ltb_spec (192 + blen payload) 192); [lia|].
      destruct (N.ltb_spec (192 + blen payload) 248); [|lia].
      replace (192 + blen payload - 192) with (blen payload) by lia.
      rewrite blen_to_nat, firstn_length_app, skipn_length_app. reflexivity.
  - pose proof (be_bytes_len_range (blen payload) Hl Hlen) as Hr.
    set (l := be_bytes (blen payload)) in *.
    cbn [app rlp_split].
    rewrite byte_of_N_to_N by (destruct Hb as [-> | ->]; lia).
    destruct Hb as [-> | ->].
    + destruct (N.ltb_spec (128 + 55 + blen l) 128); [lia|].
      destruct (N.ltb_spec (128 + 55 + blen l) 184); [lia|].
      destruct (N.ltb_spec (128 + 55 + blen l) 192); [|lia].
      replace (128 + 55 + blen l - 183) with (blen l) by lia.
      rewrite blen_to_nat, firstn_length_app, skipn_length_app.
      unfold l. rewrite be_value_be_bytes, blen_to_nat,
        firstn_length_app, skipn_length_app. reflexivity.
    + destruct (N.ltb_spec (192 + 55 + blen l) 128); [lia|].
      destruct (N.ltb_spec (192 + 55 + blen l) 184); [lia|].
      destruct (N.ltb_spec (192 + 55 + blen l) 192); [lia|].
      destruct (N.ltb_spec (192 + 55 + blen l) 248); [lia|].
      replace (192 + 55 + blen l - 247) with (blen l) by lia.
      rewrite blen_to_nat, firstn_length_app, skipn_length_app.
      unfold l. rewrite be_value_be_bytes, blen_to_nat,
        firstn_length_app, skipn_length_app. reflexivity.
Qed.

Lemma rlp_split_string (s rest : bytes) :
  blen s < 2 ^ 64 ->
  rlp_split (rlp_string s ++ rest) = Some (false, s, rest).
Proof.
  intros Hlen.
  assert (G : rlp_split ((rlp_header 128 (blen s) ++ s) ++ rest)
              = Some (false, s, rest)).
  { rewrite <- app_assoc. apply (rlp_split_header 128 s rest); [left; reflexivity | exact Hlen]. }
  unfold rlp_string. destruct s as [|x [|y s']]; try exact G.
  destruct (N.ltb_spec (Byte.to_N x) 128) as [Hx|Hx]; [|exact G].
  cbn [app rlp_split]. destruct (N.ltb_spec (Byte.to_N x) 128); [reflexivity | lia].
Qed.

Lemma rlp_split_list (items : list bytes) (rest : bytes) :
  blen (concat items) < 2 ^ 64 ->
  rlp_split (rlp_list items ++ rest) = Some (true, concat items, rest).
Proof.
  intros Hlen. unfold rlp_list. rewrite <- app_assoc.
  apply (rlp_split_header 192 (concat items) rest); [right; reflexivity | exact Hlen].
Qed.

Lemma rlp_string_inj (s1 s2 r1 r2 : bytes) :
  blen s1 < 2 ^ 64 -> blen s2 < 2 ^ 64 ->
  rlp_string s1 ++ r1 = rlp_string s2 ++ r2 -> s1 = s2 /\ r1 = r2.
Proof.
  intros H1 H2 E.
  pose proof (rlp_split_string s1 r1 H1) as E1.
  rewrite E, (rlp_split_string s2 r2 H2) in E1.
  split; congruence.
Qed.

Lemma rlp_uint_inj (k : nat) (n1 n2 : N) (r1 r2 : bytes) :
  N.of_nat k < 2 ^ 64 -> n1 < 256 ^ N.of_nat k -> n2 < 256 ^ N.of_nat k ->
  rlp_uint n1 ++ r1 = rlp_uint n2 ++ r2 -> n1 = n2 /\ r1 = r2.
Proof.
  intros Hk H1 H2 E. unfold rlp_uint in E.
  apply rlp_string_inj in E.
  - destruct E as [E ->]. split; [apply be_bytes_inj, E | reflexivity].
  - pose proof (be_bytes_length k n1 H1). unfold blen. lia.
  - pose proof (be_bytes_length k n2 H2). unfold blen. lia.
Qed.

Lemma rlp_list_inj (i1 i2 : list bytes) (r1 r2 : bytes) :
  blen (concat i1) < 2 ^ 64 -> blen (concat i2) < 2 ^ 64 ->
  rlp_list i1 ++ r1 = rlp_list i2 ++ r2 -> concat i1 = concat i2 /\ r1 = r2.
Proof.
  intros H1 H2 E.
  pose proof (rlp_split_list i1 r1 H1) as E1.
  rewrite E, (rlp_split_list i2 r2 H2) in E1.
  split; congruence.
Qed.

(** An encoded string is at most nine bytes longer than the string. *)
Lemma rlp_string_length (s : bytes) :
  blen s < 2 ^ 64 -> blen (rlp_string s) <= blen s + 9.
Proof.
  intros Hlen.
  assert (G : blen (rlp_header 128 (blen s) ++ s) <= blen s + 9).
  { unfold rlp_header. destruct (N.ltb_spec (blen s) 56) as [Hs|Hl].
    - unfold blen. cbn [app length]. lia.
    - pose proof (be_bytes_len_range (blen s) Hl Hlen) as Hr.
      unfold blen in *. cbn [app length]. rewrite length_app. lia. }
  unfold rlp_string. destruct s as [|x [|y s']]; try exact G.
  destruct (Byte.to_N x <? 128); [unfold blen; simpl; lia | exact G].
Qed.

Lemma rlp_uint_length (k : nat) (n : N) :
  N.of_nat k < 2 ^ 64 -> n < 256 ^ N.of_nat k ->
  blen (rlp_uint n) <= N.of_nat k + 9.
Proof.
  intros Hk Hn. pose proof (be_bytes_length k n Hn) as Hl.
  assert (Hb : blen (be_bytes n) < 2 ^ 64) by (unfold blen; lia).
  pose proof (rlp_string_length (be_bytes n) Hb). unfold rlp_uint, blen in *. lia.
Qed.

Lemma rlp_list_length (items : list bytes) :
  blen (concat items) < 2 ^ 64 ->
  blen (rlp_list items) <= blen (concat items) + 9.
Proof.
  intros Hlen. unfold rlp_list, rlp_header.
  destruct (N.ltb_spec (blen (concat items)) 56) as [Hs|Hl].
  - unfold blen. cbn [app length]. lia.
  - pose proof (be_bytes_len_range (blen (concat items)) Hl Hlen) as Hr.
    unfold blen in *. cbn [app length]. rewrite length_app. lia.
Qed.

Lemma blen_app (a b : bytes) : blen (a ++ b) = blen a + blen b.
Proof. unfold blen. rewrite length_app. lia. Qed.

Lemma FeePack_payload_length (f : FeePack.t) :
  FeePack.FeeCredit f < 2 ^ 256 ->
  FeePack.MaxPriorityFeePerGas f < 2 ^ 256 ->
  FeePack.MaxFeePerGas f < 2 ^ 256 ->
  blen (concat [rlp_uint (FeePack.FeeCredit f);
                rlp_uint (FeePack.MaxPriorityFeePerGas f);
                rlp_uint (FeePack.MaxFeePerGas f)]) <= 123.
Proof.
  intros H1 H2 H3. cbn [concat]. rewrite !blen_app.
  pose proof (rlp_uint_length 32 _ ltac:(cbn; lia) H1).
  pose proof (rlp_uint_length 32 _ ltac:(cbn; lia) H2).
  pose proof (rlp_uint_length 32 _ ltac:(cbn; lia) H3).
  change (blen []) with 0. change (N.of_nat 32) with 32 in *. lia.
Qed.

Lemma FeePack_rlp_inj (f1 f2 : FeePack.t) (r1 r2 : bytes) :
  FeePack.FeeCredit f1 < 2 ^ 256 ->
  FeePack.MaxPriorityFeePerGas f1 < 2 ^ 256 ->
  FeePack.MaxFeePerGas f1 < 2 ^ 256 ->
  FeePack.FeeCredit f2 < 2 ^ 256 ->
  FeePack.MaxPriorityFeePerGas f2 < 2 ^ 256 ->
  FeePack.MaxFeePerGas f2 < 2 ^ 256 ->
  FeePack_rlp f1 ++ r1 = FeePack_rlp f2 ++ r2 -> f1 = f2 /\ r1 = r2.
Proof.
  intros A1 B1 C1 A2 B2 C2 E. unfold FeePack_rlp in E.
  pose proof (FeePack_payload_length f1 A1 B1 C1) as L1.
  pose proof (FeePack_payload_length f2 A2 B2 C2) as L2.
  apply rlp_list_inj in E; [|lia|lia].
  destruct E as [E ->]. split; [|reflexivity].
  cbn [concat] in E.
  apply (rlp_uint_inj 32) in E; [|cbn; lia|assumption|assumption].
  destruct E as [Ea E].
  apply (rlp_uint_inj 32) in E; [|cbn; lia|assumption|assumption].
  destruct E as [Eb E].
  apply (rlp_uint_inj 32) in E; [|cbn; lia|assumption|assumption].
  destruct E as [Ec _].
  destruct f1, f2; cbn in *; congruence.
Qed.

Lemma digest_payload_length (d : TransactionDigest.t) :
  wfDigest d ->
  blen (concat [TransactionFlags_EncodeRLP (TransactionDigest.Flags d);
                FeePack_rlp (TransactionDigest.FeePack d);
                rlp_string (TransactionDigest.To d);
                rlp_uint (TransactionDigest.ChainId d);
                rlp_uint (TransactionDigest.Seqno d);
                rlp_string (TransactionDigest.Data d)]) < 2 ^ 64.
Proof.
  intros (Hf & Ha & Hb & Hc & Ht & Hch & Hs & Hd).
  cbn [concat]. rewrite !blen_app. change (blen []) with 0.
  unfold TransactionFlags_EncodeRLP.
  pose proof (rlp_uint_length 1 _ ltac:(cbn; lia) Hf).
  pose proof (FeePack_payload_length _ Ha Hb Hc) as Lp.
  pose proof (rlp_list_length
                [rlp_uint (FeePack.FeeCredit (TransactionDigest.FeePack d));
                 rlp_uint (FeePack.MaxPriorityFeePerGas (TransactionDigest.FeePack d));
                 rlp_uint (FeePack.MaxFeePerGas (TransactionDigest.FeePack d))]
                ltac:(lia)) as Lf.
  fold (FeePack_rlp (TransactionDigest.FeePack d)) in Lf.
  assert (Ht' : blen (TransactionDigest.To d) = 20) by (unfold blen; rewrite Ht; reflexivity).
  pose proof (rlp_string_length (TransactionDigest.To d) ltac:(lia)).
  pose proof (rlp_uint_length 8 _ ltac:(cbn; lia) Hch).
  pose proof (rlp_uint_length 8 _ ltac:(cbn; lia) Hs).
  pose proof (rlp_string_length (TransactionDigest.Data d) ltac:(lia)).
  change (N.of_nat 1) with 1 in *. change (N.of_nat 8) with 8 in *. lia.
Qed.

(** The canonical bytes of a digest determine each of its six fields. *)
Lemma TransactionDigest_MarshalNil_inj (d1 d2 : TransactionDigest.t) :
  wfDigest d1 -> wfDigest d2 ->
  TransactionDigest_MarshalNil d1 = TransactionDigest_MarshalNil d2 -> d1 = d2.
Proof.
  intros W1 W2 E.
  pose proof (digest_payload_length d1 W1) as L1.
  pose proof (digest_payload_length d2 W2) as L2.
  destruct W1 as (Hf1 & Ha1 & Hb1 & Hc1 & Ht1 & Hch1 & Hs1 & Hd1).
  destruct W2 as (Hf2 & Ha2 & Hb2 & Hc2 & Ht2 & Hch2 & Hs2 & Hd2).
  unfold TransactionDigest_MarshalNil in E.
  assert (E' := f_equal (fun l => l ++ []) E). cbn beta in E'.
  apply rlp_list_inj in E'; [|assumption|assumption].
  destruct E' as [P _]. cbn [concat] in P.
  unfold TransactionFlags_EncodeRLP in P.
  apply (rlp_uint_inj 1) in P; [|cbn; lia|assumption|assumption].
  destruct P as [Eflags P].
  apply FeePack_rlp_inj in P; try assumption.
  destruct P as [Efee P].
  apply rlp_string_inj in P; [|unfold blen; rewrite Ht1; cbn; lia
                              |unfold blen; rewrite Ht2; cbn; lia].
  destruct P as [Eto P].
  apply (rlp_uint_inj 8) in P; [|cbn; lia|assumption|assumption].
  destruct P as [Echain P].
  apply (rlp_uint_inj 8) in P; [|cbn; lia|assumption|assumption].
  destruct P as [Eseq P].
  apply rlp_string_inj in P; [|lia|lia].
  destruct P as [Edata _].
  destruct d1 as [[b1] fp1 to1 ch1 sq1 da1], d2 as [[b2] fp2 to2 ch2 sq2 da2].
  cbn in *. congruence.
Qed.

(** ** Hashing *)

Section HashingProperties.
Variable Address_ShardId : Address -> ShardId.
Variable Keccak256 : bytes -> Hash.
Variable ToShardedHash : Hash -> ShardId -> Hash.
Variable PrivateKey : Type.
Variable crypto_Sign : bytes -> PrivateKey -> bytes * option error.

(** C4. [SigningHash] is Keccak-256 of the canonical bytes of the six
    digest fields and of nothing else: two transactions that agree on
    Flags, FeePack, To, ChainId, Seqno and Data have the same signing hash,
    whatever their From, Signature, Value, Token, RequestId, RequestChain,
    TxId, RefundTo and BounceTo; and a change to one of the six digest
    fields (within the ranges of their types) changes the bytes that are
    hashed and with them the signing hash, Keccak-256 not colliding on the
    two encodings: equal signing hashes of different digests are a
    collision of Keccak-256. *)
Theorem SigningHash_digest_only (m1 m2 : Transaction.t) :
  Transaction_SigningHash Keccak256 m1
  = (Keccak256 (TransactionDigest_MarshalNil (Transaction.Digest m1)), None)
  /\ (Transaction.Digest m1 = Transaction.Digest m2 ->
      Transaction_SigningHash Keccak256 m1 = Transaction_SigningHash Keccak256 m2)
  /\ (wfDigest (Transaction.Digest m1) -> wfDigest (Transaction.Digest m2) ->
      Transaction.Digest m1 <> Transaction.Digest m2 ->
      TransactionDigest_MarshalNil (Transaction.Digest m1)
      <> TransactionDigest_MarshalNil (Transaction.Digest m2)
      /\ (fst (Transaction_SigningHash Keccak256 m1)
          = fst (Transaction_SigningHash Keccak256 m2) ->
          exists b1 b2, b1 <> b2 /\ Keccak256 b1 = Keccak256 b2))
  /\ (wfDigest (Transaction.Digest m1) -> wfDigest (Transaction.Digest m2) ->
      Transaction.Digest m1 <> Transaction.Digest m2 ->
      (Keccak256 (TransactionDigest_MarshalNil (Transaction.Digest m1))
       = Keccak256 (TransactionDigest_MarshalNil (Transaction.Digest m2)) ->
       TransactionDigest_MarshalNil (Transaction.Digest m1)
       = TransactionDigest_MarshalNil (Transaction.Digest m2)) ->
      fst (Transaction_SigningHash Keccak256 m1)
      <> fst (Transaction_SigningHash Keccak256 m2)).
Proof.
  assert (NE : wfDigest (Transaction.Digest m1) -> wfDigest (Transaction.Digest m2) ->
               Transaction.Digest m1 <> Transaction.Digest m2 ->
               TransactionDigest_MarshalNil (Transaction.Digest m1)
               <> TransactionDigest_MarshalNil (Transaction.Digest m2)).
  { intros W1 W2 D E. apply D. apply TransactionDigest_MarshalNil_inj; assumption. }
  split; [reflexivity|]. split; [|split].
  - intros E. unfold Transaction_SigningHash. rewrite E. reflexivity.
  - intros W1 W2 D.
    split; [exact (NE W1 W2 D)|].
    intros E. cbn [Transaction_SigningHash fst] in E.
    exists (TransactionDigest_MarshalNil (Transaction.Digest m1)),
           (TransactionDigest_MarshalNil (Transaction.Digest m2)).
    split; [exact (NE W1 W2 D) | exact E].
  - intros W1 W2 D Free E. cbn [Transaction_SigningHash fst] in E.
    apply (NE W1 W2 D), Free, E.
Qed.

(** C5. For a transaction without the Internal bit, [Hash()] is the hash
    of the external transaction that [toExternal()] produces from it, that
    is [ToShardedHash(Keccak256(canonical bytes), To.ShardId())]. *)
Theorem Transaction_Hash_external (t : Transaction.t) :
  flagBit t 0 = false ->
  exists x,
    toExternal t = Ret x
    /\ Transaction_Hash Address_ShardId Keccak256 ToShardedHash t
       = Ret (ExternalTransaction_Hash Address_ShardId Keccak256 ToShardedHash x)
    /\ ExternalTransaction_Hash Address_ShardId Keccak256 ToShardedHash x
       = ToShardedHash (Keccak256 (ExternalTransaction_MarshalNil x))
           (Address_ShardId (Transaction.To t)).
Proof.
  intros H. unfold Transaction_Hash, toExternal. unfold_predicates.
  unfold flagBit in H. rewrite H. cbn [negb obind].
  eexists. split; [reflexivity|]. split; reflexivity.
Qed.

(** C7. For a transaction without the Internal bit, [toExternal()] gives
    an external transaction of kind Deploy if the Deploy bit is set, else
    Refund if the Refund bit is set, else Execution, never Response, with
    AuthData taken from Signature; on a transaction with the Internal bit,
    [toExternal] panics and so does [Sign]. *)
Theorem toExternal_kind (t : Transaction.t) :
  (flagBit t 0 = false ->
   exists x,
     toExternal t = Ret x
     /\ ExternalTransaction.Kind x =
        (if flagBit t 1 then DeployTransactionKind
         else if flagBit t 2 then RefundTransactionKind
         else ExecutionTransactionKind)
     /\ ExternalTransaction.Kind x <> ResponseTransactionKind
     /\ ExternalTransaction.AuthData x = Transaction.Signature t)
  /\ (flagBit t 0 = true ->
      (exists msg, toExternal t = Panic msg)
      /\ forall key : PrivateKey,
           exists msg, Transaction_Sign Keccak256 PrivateKey crypto_Sign t key
                       = Panic msg).
Proof.
  unfold Transaction_Sign, toExternal, flagBit. unfold_predicates.
  split; intros H; rewrite H.
  - eexists. split; [reflexivity|]. cbn [ExternalTransaction.Kind ExternalTransaction.AuthData].
    split; [reflexivity|]. split; [|reflexivity].
    destruct (N.testbit (Bits (Transaction.Flags t)) 1);
      [|destruct (N.testbit (Bits (Transaction.Flags t)) 2)]; discriminate.
  - split; [eexists; reflexivity|]. intros key. eexists. reflexivity.
Qed.

(** C10. Promoting an external transaction keeps the signed message:
    [x.ToTransaction().SigningHash()] equals [x.SigningHash()] and the
    promoted Signature is the AuthData of [x], so whatever check accepts
    AuthData over the signing hash of [x] accepts Signature over that of
    the promoted transaction. *)
Theorem ToTransaction_SigningHash (x : ExternalTransaction.t) :
  Transaction_SigningHash Keccak256 (ExternalTransaction_ToTransaction x)
  = ExternalTransaction_SigningHash Keccak256 x
  /\ Transaction.Signature (ExternalTransaction_ToTransaction x)
     = ExternalTransaction.AuthData x
  /\ forall verify : Hash -> bytes -> bool,
       verify (fst (Transaction_SigningHash Keccak256
                      (ExternalTransaction_ToTransaction x)))
              (Transaction.Signature (ExternalTransaction_ToTransaction x))
       = verify (fst (ExternalTransaction_SigningHash Keccak256 x))
                (ExternalTransaction.AuthData x).
Proof. repeat split. Qed.

End HashingProperties.

(** ** Textual form of the flags *)

Lemma wrap8_land (n : N) : wrap8 n = N.land n 255.
Proof. unfold wrap8. change 255 with (N.ones 8). rewrite N.land_ones. reflexivity. Qed.

Lemma SetBit_comm (m : BitFlags) (i j : N) :
  SetBit (SetBit m i) j = SetBit (SetBit m j) i.
Proof.
  unfold SetBit. cbn [Bits]. f_equal. rewrite !wrap8_land.
  apply N.bits_inj. intros k.
  rewrite !N.land_spec, !N.lor_spec, !N.land_spec, !N.lor_spec.
  destruct (N.testbit (Bits m) k), (N.testbit (N.shiftl 1 i) k),
    (N.testbit (N.shiftl 1 j) k), (N.testbit 255 k); reflexivity.
Qed.

Lemma applyToken_comm (m : TransactionFlags) (a b : string) :
  applyToken (applyToken m a) b = applyToken (applyToken m b) a.
Proof.
  unfold applyToken.
  destruct (String.eqb a "Internal"), (String.eqb a "Deploy"),
    (String.eqb a "Refund"), (String.eqb a "Bounce"), (String.eqb a "Response"),
    (String.eqb b "Internal"), (String.eqb b "Deploy"),
    (String.eqb b "Refund"), (String.eqb b "Bounce"), (String.eqb b "Response");
    first [reflexivity | apply SetBit_comm].
Qed.

Lemma applyToken_fold_comm (s : list string) :
  forall (m : TransactionFlags) (a : string),
    fold_left applyToken s (applyToken m a)
    = applyToken (fold_left applyToken s m) a.
Proof.
  induction s as [|b s IH]; intros m a; cbn [fold_left]; [reflexivity|].
  rewrite applyToken_comm. apply IH.
Qed.

Lemma applyToken_perm (s s' : list string) :
  Permutation s s' ->
  forall m : TransactionFlags, fold_left applyToken s m = fold_left applyToken s' m.
Proof.
  induction 1 as [|a s s' _ IH|a b s|s1 s2 s3 _ IH1 _ IH2]; intros m;
    cbn [fold_left].
  - reflexivity.
  - apply IH.
  - rewrite applyToken_comm. reflexivity.
  - rewrite IH1. apply IH2.
Qed.

Lemma applyToken_unknown (m : TransactionFlags) (v : string) :
  knownToken v = false -> applyToken m v = m.
Proof.
  unfold knownToken, applyToken. intros H.
  destruct (String.eqb v "Internal"), (String.eqb v "Deploy"),
    (String.eqb v "Refund"), (String.eqb v "Bounce"), (String.eqb v "Response");
    first [discriminate | reflexivity].
Qed.

Lemma applyToken_filter (s : list string) :
  forall m : TransactionFlags,
    fold_left applyToken (filter knownToken s) m = fold_left applyToken s m.
Proof.
  induction s as [|v s IH]; intros m; cbn [filter fold_left]; [reflexivity|].
  destruct (knownToken v) eqn:K; cbn [fold_left].
  - apply IH.
  - rewrite (applyToken_unknown m v K). apply IH.
Qed.

(** Case analysis on a positive number that a hypothesis bounds: every
    branch is either out of range or a numeral, settled by evaluation. *)
Ltac small_positive p :=
  destruct p as [p|p|];
  [ first [exfalso; lia | small_positive p]
  | first [exfalso; lia | small_positive p]
  | vm_compute; repeat split ].

(** A flag byte without reserved bits is one of thirty-two values. *)
Lemma flags_json_all (n : N) :
  n < 32 ->
  fst (TransactionFlags_MarshalJSON (mkBits n)) = renderArray (flagTokens (mkBits n))
  /\ json_Unmarshal (fst (TransactionFlags_MarshalJSON (mkBits n)))
     = Some (flagTokens (mkBits n))
  /\ fold_left applyToken (flagTokens (mkBits n)) (mkBits 0) = mkBits n.
Proof.
  intros H. destruct n as [|p]; [vm_compute; repeat split|].
  small_positive p.
Qed.

(** C8. For a flag set without reserved bits, [MarshalJSON] gives the
    array of exactly one of Internal and External followed by Deploy,
    Refund, Bounce, Response, in this order, for the bits that are set, and
    [UnmarshalJSON] of that text gives the flag set back, whatever the
    receiver held; [UnmarshalJSON] gives the same result for the same
    tokens in another order, and for an input without its unknown tokens. *)
Theorem flags_json_roundtrip (f : TransactionFlags) :
  Bits f < 32 ->
  TransactionFlags_MarshalJSON f = (renderArray (flagTokens f), None)
  /\ (forall m0, TransactionFlags_UnmarshalJSON m0 (fst (TransactionFlags_MarshalJSON f))
                 = (f, None))
  /\ (forall m0 data data' s s',
        json_Unmarshal data = Some s -> json_Unmarshal data' = Some s' ->
        Permutation s s' ->
        TransactionFlags_UnmarshalJSON m0 data = TransactionFlags_UnmarshalJSON m0 data')
  /\ (forall m0 data data' s,
        json_Unmarshal data = Some s ->
        json_Unmarshal data' = Some (filter knownToken s) ->
        TransactionFlags_UnmarshalJSON m0 data = TransactionFlags_UnmarshalJSON m0 data').
Proof.
  intros H. destruct f as [n]. cbn [Bits] in H.
  destruct (flags_json_all n H) as (M & U & A).
  split; [|split; [|split]].
  - rewrite <- M. reflexivity.
  - intros m0. unfold TransactionFlags_UnmarshalJSON. rewrite U.
    unfold Clear. rewrite A. reflexivity.
  - intros m0 data data' s s' E E' P. unfold TransactionFlags_UnmarshalJSON.
    rewrite E, E', (applyToken_perm s s' P). reflexivity.
  - intros m0 data data' s E E'. unfold TransactionFlags_UnmarshalJSON.
    rewrite E, E', applyToken_filter. reflexivity.
Qed.

(** C9, as stated, fails: a receiver holding the Internal bit that is given
    an input that does not parse comes back with an error and with the bits
    cleared, not with the bits it held. *)
Lemma UnmarshalJSON_error_counterexample :
  json_Unmarshal "{" = None
  /\ snd (TransactionFlags_UnmarshalJSON (mkBits 1) "{") = Some ErrJSON
  /\ Bits (fst (TransactionFlags_UnmarshalJSON (mkBits 1) "{")) = 0
  /\ Bits (fst (TransactionFlags_UnmarshalJSON (mkBits 1) "{")) <> Bits (mkBits 1).
Proof. repeat split. discriminate. Qed.

(** C9, amended. When the input fails to parse, [UnmarshalJSON] returns
    the error and leaves the receiver cleared: all bits are zero, none of
    the tokens of the input has been applied, and the value the receiver
    held before the call is gone. *)
Theorem UnmarshalJSON_error_clears (m : TransactionFlags) (data : string) :
  json_Unmarshal data = None ->
  TransactionFlags_UnmarshalJSON m data = (mkBits 0, Some ErrJSON).
Proof.
  intros E. unfold TransactionFlags_UnmarshalJSON. rewrite E. reflexivity.
Qed.

(** ** The properties at concrete inputs *)

Lemma SigningHash_digest_only_witness :
  Transaction_SigningHash demoHash demoExternal
  = Transaction_SigningHash demoHash demoExternalMoved
  /\ TransactionDigest_MarshalNil (Transaction.Digest demoExternal)
     <> TransactionDigest_MarshalNil (Transaction.Digest demoExternalDeploy)
  /\ fst (Transaction_SigningHash demoHash demoExternal)
     <> fst (Transaction_SigningHash demoHash demoExternalDeploy).
Proof.
  assert (W1 : wfDigest (Transaction.Digest demoExternal))
    by (vm_compute; repeat split).
  assert (W2 : wfDigest (Transaction.Digest demoExternalDeploy))
    by (vm_compute; repeat split).
  assert (D : Transaction.Digest demoExternal <> Transaction.Digest demoExternalDeploy)
    by discriminate.
  destruct (SigningHash_digest_only demoHash demoExternal demoExternalMoved)
    as (_ & Same & _ & _).
  destruct (SigningHash_digest_only demoHash demoExternal demoExternalDeploy)
    as (_ & _ & Bytes & Hashes).
  split; [apply Same; reflexivity|].
  split; [apply (Bytes W1 W2 D)|].
  apply (Hashes W1 W2 D). intros E. vm_compute in E. discriminate.
Defined.

Lemma Transaction_Hash_external_witness :
  flagBit demoExternal 0 = false
  /\ exists x,
       toExternal demoExternal = Ret x
       /\ Transaction_Hash demoShardId demoHash demoSharded demoExternal
          = Ret (ExternalTransaction_Hash demoShardId demoHash demoSharded x)
       /\ ExternalTransaction_Hash demoShardId demoHash demoSharded x
          = demoSharded (demoHash (ExternalTransaction_MarshalNil x))
              (demoShardId (Transaction.To demoExternal)).
Proof.
  split; [reflexivity|].
  apply (Transaction_Hash_external demoShardId demoHash demoSharded demoExternal).
  reflexivity.
Defined.

Lemma toExternal_kind_witness :
  (exists x,
     toExternal demoExternalDeploy = Ret x
     /\ ExternalTransaction.Kind x = DeployTransactionKind
     /\ ExternalTransaction.Kind x <> ResponseTransactionKind
     /\ ExternalTransaction.AuthData x = Transaction.Signature demoExternalDeploy)
  /\ (exists msg, toExternal demoInternal = Panic msg)
  /\ exists msg, Transaction_Sign demoHash unit demoSign demoInternal tt = Panic msg.
Proof.
  split; [|split].
  - apply (toExternal_kind demoHash unit demoSign demoExternalDeploy). reflexivity.
  - apply (toExternal_kind demoHash unit demoSign demoInternal). reflexivity.
  - apply (toExternal_kind demoHash unit demoSign demoInternal). reflexivity.
Defined.

Lemma flags_json_roundtrip_witness :
  Bits (mkBits 8) < 32
  /\ TransactionFlags_MarshalJSON (mkBits 8)
     = (renderArray ["External"%string; "Bounce"%string], None)
  /\ TransactionFlags_UnmarshalJSON (mkBits 5)
       (fst (TransactionFlags_MarshalJSON (mkBits 8))) = (mkBits 8, None)
  /\ TransactionFlags_UnmarshalJSON (mkBits 5)
       (renderArray ["Bounce"%string; "Internal"%string])
     = TransactionFlags_UnmarshalJSON (mkBits 5)
         (renderArray ["Internal"%string; "Bounce"%string])
  /\ TransactionFlags_UnmarshalJSON (mkBits 5)
       (renderArray ["External"%string; "Bounce"%string; "Later"%string])
     = TransactionFlags_UnmarshalJSON (mkBits 5)
         (renderArray ["Bounce"%string]).
Proof.
  assert (H : Bits (mkBits 8) < 32) by reflexivity.
  split; [exact H|].
  destruct (flags_json_roundtrip (mkBits 8) H) as (M & U & P & K).
  split; [exact M|]. split; [apply U|]. split.
  - apply (P (mkBits 5) _ _ ["Bounce"%string; "Internal"%string]
             ["Internal"%string; "Bounce"%string]);
      [reflexivity | reflexivity | apply perm_swap].
  - apply (K (mkBits 5) _ _
             ["External"%string; "Bounce"%string; "Later"%string]);
      reflexivity.
Defined.

Lemma UnmarshalJSON_error_clears_witness :
  json_Unmarshal "{" = None
  /\ TransactionFlags_UnmarshalJSON (mkBits 1) "{" = (mkBits 0, Some ErrJSON).
Proof.
  split; [reflexivity|].
  apply (UnmarshalJSON_error_clears (mkBits 1) "{"). reflexivity.
Defined.

(** The scenarios of the specification. *)

Example scenario_S2 :
  Transaction.Flags (InternalTransactionPayload_ToTransaction
     (InternalTransactionPayload.mk DeployTransactionKind false 1000 0
        (repeat Byte.xcc 20) zeroAddress zeroAddress 0 [Byte.xde; Byte.xad] 0 [])
     (repeat Byte.xaa 20) 7) = mkBits 3.
Proof. reflexivity. Qed.

Example scenario_S3 :
  VerifyFlags demoShardId demoIsMainShard
    (Transaction.mk
       (TransactionDigest.mk (mkBits 1) NewFeePack zeroAddress 0 0 [])
       (Byte.x00 :: Byte.x03 :: repeat Byte.x11 18)
       0 zeroAddress zeroAddress 0 0 [] [] [])
  = Some ErrMainShardGate.
Proof. reflexivity. Qed.

Example scenario_S4 :
  VerifyFlags demoShardId demoIsMainShard
    (Transaction.mk
       (TransactionDigest.mk (mkBits 7) NewFeePack zeroAddress 0 0 [])
       zeroAddress 0 zeroAddress zeroAddress 0 0 [] [] [])
  = Some ErrInternalRoles.
Proof. reflexivity. Qed.

Example scenario_S6 :
  let t := Transaction.mk
             (TransactionDigest.mk (mkBits 0) (FeePack.mk 0 2 5) zeroAddress 0 0 [])
             zeroAddress 0 zeroAddress zeroAddress 0 0 [] [] [] in
  TransactionGasPrice t 4 = (5, None)
  /\ TransactionGasPrice t 6 = (0, Some (ErrMaxFeeBelowBase 5 6)).
Proof. split; reflexivity. Qed.

(** * Further properties *)

(** Case analysis on every string comparison in the goal. *)
Ltac case_string_eqb :=
  repeat match goal with
         | |- context [String.eqb ?a ?b] =>
             let E := fresh "E" in
             destruct (String.eqb a b) eqn:E; cbn [orb fst snd]
         end.

(** X1. [TransactionKind.String] and [Set]: for each of the four kinds,
    [String] gives a name that [Set] reads back as that kind, whatever the
    receiver held; on any other value [String] panics. When [Set] fails the
    receiver keeps its value and the error names the input; when it
    succeeds the receiver is one of the four kinds. *)
Theorem TransactionKind_String_Set (k : TransactionKind) :
  (k < 4 ->
   exists s, TransactionKind_String k = Ret s
             /\ forall k0, TransactionKind_Set k0 s = (k, None))
  /\ (4 <= k -> exists msg, TransactionKind_String k = Panic msg)
  /\ (forall k0 input e,
        snd (TransactionKind_Set k0 input) = Some e ->
        fst (TransactionKind_Set k0 input) = k0
        /\ e = ErrUnknownTransactionKind input)
  /\ (forall k0 input,
        snd (TransactionKind_Set k0 input) = None ->
        fst (TransactionKind_Set k0 input) < 4).
Proof.
  split; [|split; [|split]].
  - intros H. assert (C : k = 0 \/ k = 1 \/ k = 2 \/ k = 3) by lia.
    destruct C as [-> | [-> | [-> | ->]]]; eexists; (split; [reflexivity|]);
      intros k0; reflexivity.
  - intros H. unfold TransactionKind_String, ExecutionTransactionKind,
      DeployTransactionKind, RefundTransactionKind, ResponseTransactionKind.
    destruct (N.eqb_spec k 0); [lia|]. destruct (N.eqb_spec k 1); [lia|].
    destruct (N.eqb_spec k 2); [lia|]. destruct (N.eqb_spec k 3); [lia|].
    eexists. reflexivity.
  - intros k0 input e. unfold TransactionKind_Set. case_string_eqb;
      intros H; try discriminate. cbn in H. split; congruence.
  - intros k0 input. unfold TransactionKind_Set. case_string_eqb;
      intros H; try discriminate; reflexivity.
Qed.

Lemma TransactionKind_String_Set_witness :
  (exists s, TransactionKind_String RefundTransactionKind = Ret s
             /\ forall k0, TransactionKind_Set k0 s = (RefundTransactionKind, None))
  /\ (exists msg, TransactionKind_String 7 = Panic msg)
  /\ fst (TransactionKind_Set DeployTransactionKind "Refund"%string) = DeployTransactionKind
  /\ fst (TransactionKind_Set 9 "deploy"%string) < 4.
Proof.
  split; [|split; [|split]].
  - apply (TransactionKind_String_Set RefundTransactionKind). reflexivity.
  - apply (TransactionKind_String_Set 7). discriminate.
  - destruct (TransactionKind_String_Set 0) as (_ & _ & E & _).
    apply (E DeployTransactionKind "Refund"%string
             (ErrUnknownTransactionKind "Refund"%string)). reflexivity.
  - destruct (TransactionKind_String_Set 0) as (_ & _ & _ & S).
    apply (S 9 "deploy"%string). reflexivity.
Defined.

(** X2. [ForwardKind.String] and [Set]: the same round trip for the four
    forward kinds, the panic of [String] on any other value, and a [Set]
    that leaves the receiver alone when it fails. *)
Theorem ForwardKind_String_Set (k : ForwardKind) :
  (k < 4 ->
   exists s, ForwardKind_String k = Ret s
             /\ forall k0, ForwardKind_Set k0 s = (k, None))
  /\ (4 <= k -> exists msg, ForwardKind_String k = Panic msg)
  /\ (forall k0 input e,
        snd (ForwardKind_Set k0 input) = Some e ->
        fst (ForwardKind_Set k0 input) = k0
        /\ e = ErrUnknownForwardKind input)
  /\ (forall k0 input,
        snd (ForwardKind_Set k0 input) = None ->
        fst (ForwardKind_Set k0 input) < 4).
Proof.
  split; [|split; [|split]].
  - intros H. assert (C : k = 0 \/ k = 1 \/ k = 2 \/ k = 3) by lia.
    destruct C as [-> | [-> | [-> | ->]]]; eexists; (split; [reflexivity|]);
      intros k0; reflexivity.
  - intros H. unfold ForwardKind_String, ForwardKindRemaining,
      ForwardKindPercentage, ForwardKindValue, ForwardKindNone.
    destruct (N.eqb_spec k 0); [lia|]. destruct (N.eqb_spec k 1); [lia|].
    destruct (N.eqb_spec k 2); [lia|]. destruct (N.eqb_spec k 3); [lia|].
    eexists. reflexivity.
  - intros k0 input e. unfold ForwardKind_Set. case_string_eqb;
      intros H; try discriminate. cbn in H. split; congruence.
  - intros k0 input. unfold ForwardKind_Set. case_string_eqb;
      intros H; try discriminate; reflexivity.
Qed.

Lemma ForwardKind_String_Set_witness :
  (exists s, ForwardKind_String ForwardKindValue = Ret s
             /\ forall k0, ForwardKind_Set k0 s = (ForwardKindValue, None))
  /\ (exists msg, ForwardKind_String 4 = Panic msg)
  /\ fst (ForwardKind_Set ForwardKindNone "Value"%string) = ForwardKindNone
  /\ fst (ForwardKind_Set 9 "none"%string) < 4.
Proof.
  split; [|split; [|split]].
  - apply (ForwardKind_String_Set ForwardKindValue). reflexivity.
  - apply (ForwardKind_String_Set 4). discriminate.
  - destruct (ForwardKind_String_Set 0) as (_ & _ & E & _).
    apply (E ForwardKindNone "Value"%string
             (ErrUnknownForwardKind "Value"%string)). reflexivity.
  - destruct (ForwardKind_String_Set 0) as (_ & _ & _ & S).
    apply (S 9 "none"%string). reflexivity.
Defined.

(** The three values [TransactionFlagsFromKind] takes for an external
    transaction, by the kind read back from them. *)
Lemma FromKind_external (k : TransactionKind) :
  TransactionFlagsFromKind false k
  = mkBits (if k =? 1 then 2 else if k =? 2 then 4 else if k =? 3 then 16 else 0).
Proof.
  pose proof (FromKind_bits false k) as H.
  destruct (TransactionFlagsFromKind false k) as [b]. cbn [Bits] in H.
  rewrite H. reflexivity.
Qed.

(** X3. [TransactionFlagsFromKind(internal, kind)] sets the Internal bit
    iff [internal], the Deploy, Refund or Response bit iff the kind is the
    matching one, never the Bounce bit and never a reserved bit; a kind
    outside the four constants sets no kind bit. *)
Theorem TransactionFlagsFromKind_bits (internal : bool) (kind : TransactionKind) :
  Flags_IsInternal (TransactionFlagsFromKind internal kind) = internal
  /\ Flags_IsDeploy (TransactionFlagsFromKind internal kind)
     = (kind =? DeployTransactionKind)
  /\ Flags_IsRefund (TransactionFlagsFromKind internal kind)
     = (kind =? RefundTransactionKind)
  /\ Flags_IsResponse (TransactionFlagsFromKind internal kind)
     = (kind =? ResponseTransactionKind)
  /\ Flags_IsBounce (TransactionFlagsFromKind internal kind) = false
  /\ Bits (TransactionFlagsFromKind internal kind) < 32.
Proof.
  unfold Flags_IsInternal, Flags_IsDeploy, Flags_IsRefund, Flags_IsResponse,
    Flags_IsBounce, GetBit, DeployTransactionKind, RefundTransactionKind,
    ResponseTransactionKind.
  rewrite FromKind_bits.
  destruct internal;
    (destruct (N.eqb_spec kind 1) as [->|H1]; [repeat split|]);
    (destruct (N.eqb_spec kind 2) as [->|H2]; [repeat split|]);
    (destruct (N.eqb_spec kind 3) as [->|H3]; repeat split).
Qed.

(** X4. [x.ToTransaction().toExternal()] never panics and gives [x] back
    with its kind read back from the flags: Deploy and Refund are kept, any
    other kind becomes Execution. It is [x] itself exactly when the kind of
    [x] is Execution, Deploy or Refund; a Response kind is lost. *)
Theorem ToTransaction_toExternal (x : ExternalTransaction.t) :
  toExternal (ExternalTransaction_ToTransaction x)
  = Ret (ExternalTransaction.mk (readBackKind (ExternalTransaction.Kind x))
           (ExternalTransaction.FeePack x) (ExternalTransaction.To x)
           (ExternalTransaction.ChainId x) (ExternalTransaction.Seqno x)
           (ExternalTransaction.Data x) (ExternalTransaction.AuthData x))
  /\ (toExternal (ExternalTransaction_ToTransaction x) = Ret x
      <-> ExternalTransaction.Kind x <= 2).
Proof.
  assert (E : toExternal (ExternalTransaction_ToTransaction x)
              = Ret (ExternalTransaction.mk (readBackKind (ExternalTransaction.Kind x))
                       (ExternalTransaction.FeePack x) (ExternalTransaction.To x)
                       (ExternalTransaction.ChainId x) (ExternalTransaction.Seqno x)
                       (ExternalTransaction.Data x) (ExternalTransaction.AuthData x))).
  { unfold toExternal, ExternalTransaction_ToTransaction, readBackKind.
    unfold_predicates.
    cbn [Transaction.Flags Transaction.Digest TransactionDigest.Flags
         Transaction.FeePack Transaction.To Transaction.ChainId Transaction.Seqno
         Transaction.Data Transaction.Signature TransactionDigest.FeePack
         TransactionDigest.To TransactionDigest.ChainId TransactionDigest.Seqno
         TransactionDigest.Data].
    rewrite FromKind_external.
    unfold DeployTransactionKind, RefundTransactionKind.
    destruct (ExternalTransaction.Kind x =? 1); [reflexivity|].
    destruct (ExternalTransaction.Kind x =? 2); [reflexivity|].
    destruct (ExternalTransaction.Kind x =? 3); reflexivity. }
  split; [exact E|]. rewrite E.
  destruct x as [k fp to ch sq da au]. cbn [ExternalTransaction.Kind
    ExternalTransaction.FeePack ExternalTransaction.To ExternalTransaction.ChainId
    ExternalTransaction.Seqno ExternalTransaction.Data ExternalTransaction.AuthData].
  unfold readBackKind, DeployTransactionKind, RefundTransactionKind,
    ExecutionTransactionKind.
  split.
  - intros H. injection H as H.
    destruct (N.eqb_spec k 1); [lia|]. destruct (N.eqb_spec k 2); lia.
  - intros H.
    destruct (N.eqb_spec k 1) as [->|]; [reflexivity|].
    destruct (N.eqb_spec k 2) as [->|]; [reflexivity|].
    assert (k = 0) by lia. subst k. reflexivity.
Qed.

(** X5. For a transaction [t] that [toExternal] accepts, promoting the
    result back keeps Signature, FeePack, To, ChainId, Seqno and Data. The
    digest of [t] is restored exactly when the flag byte of [t] is 0x00,
    0x02 or 0x04 (no bit besides one of Deploy and Refund); in that case
    the external signing hash is the signing hash of [t]; and, the fields
    of [t] being in the ranges of their types, the canonical bytes that
    the two signing hashes are taken of are the same exactly in that case,
    so that for any other flag byte they are Keccak-256 of different
    bytes. *)
Theorem toExternal_ToTransaction (t : Transaction.t) (x : ExternalTransaction.t) :
  toExternal t = Ret x ->
  (Transaction.Signature (ExternalTransaction_ToTransaction x) = Transaction.Signature t
   /\ Transaction.FeePack (ExternalTransaction_ToTransaction x) = Transaction.FeePack t
   /\ Transaction.To (ExternalTransaction_ToTransaction x) = Transaction.To t
   /\ Transaction.ChainId (ExternalTransaction_ToTransaction x) = Transaction.ChainId t
   /\ Transaction.Seqno (ExternalTransaction_ToTransaction x) = Transaction.Seqno t
   /\ Transaction.Data (ExternalTransaction_ToTransaction x) = Transaction.Data t)
  /\ (Transaction.Digest (ExternalTransaction_ToTransaction x) = Transaction.Digest t
      <-> Bits (Transaction.Flags t) = 0 \/ Bits (Transaction.Flags t) = 2
          \/ Bits (Transaction.Flags t) = 4)
  /\ (Bits (Transaction.Flags t) = 0 \/ Bits (Transaction.Flags t) = 2
      \/ Bits (Transaction.Flags t) = 4 ->
      forall Keccak256 : bytes -> Hash,
        ExternalTransaction_SigningHash Keccak256 x
        = Transaction_SigningHash Keccak256 t)
  /\ (forall Keccak256 : bytes -> Hash,
        ExternalTransaction_SigningHash Keccak256 x
        = (Keccak256 (TransactionDigest_MarshalNil
                        (Transaction.Digest (ExternalTransaction_ToTransaction x))),
           None))
  /\ (wfDigest (Transaction.Digest t) ->
      (TransactionDigest_MarshalNil
         (Transaction.Digest (ExternalTransaction_ToTransaction x))
       = TransactionDigest_MarshalNil (Transaction.Digest t)
       <-> Bits (Transaction.Flags t) = 0 \/ Bits (Transaction.Flags t) = 2
           \/ Bits (Transaction.Flags t) = 4)).
Proof.
  unfold toExternal. unfold_predicates.
  destruct t as [[[b] fp to ch sq da] fr tx rt bt va rq tk rc sg].
  cbn [Transaction.Flags Transaction.Digest TransactionDigest.Flags Bits
       Transaction.FeePack Transaction.To Transaction.ChainId Transaction.Seqno
       Transaction.Data Transaction.Signature TransactionDigest.FeePack
       TransactionDigest.To TransactionDigest.ChainId TransactionDigest.Seqno
       TransactionDigest.Data].
  destruct (N.testbit b 0) eqn:B0; [discriminate|].
  intros H. injection H as <-.
  set (kind := if N.testbit b 1 then DeployTransactionKind
               else if N.testbit b 2 then RefundTransactionKind
               else ExecutionTransactionKind).
  assert (Dg : Transaction.Digest
                 (ExternalTransaction_ToTransaction
                    (ExternalTransaction.mk kind fp to ch sq da sg))
               = TransactionDigest.mk (TransactionFlagsFromKind false kind)
                   fp to ch sq da) by reflexivity.
  assert (Fk : Bits (TransactionFlagsFromKind false kind) < 2 ^ 8).
  { rewrite FromKind_external. unfold kind.
    destruct (N.testbit b 1); [reflexivity|].
    destruct (N.testbit b 2); reflexivity. }
  assert (D : Transaction.Digest
                (ExternalTransaction_ToTransaction
                   (ExternalTransaction.mk kind fp to ch sq da sg))
              = TransactionDigest.mk (mkBits b) fp to ch sq da
              <-> b = 0 \/ b = 2 \/ b = 4).
  { rewrite Dg, FromKind_external. unfold kind. split.
    - intros E. injection E as E.
      destruct (N.testbit b 1); [right; left; symmetry; exact E|].
      destruct (N.testbit b 2); [right; right; symmetry; exact E|].
      left; symmetry; exact E.
    - intros [-> | [-> | ->]]; reflexivity. }
  split; [repeat split|]. split; [exact D|]. split; [|split].
  - intros Hb K. apply D in Hb.
    unfold ExternalTransaction_SigningHash, Transaction_SigningHash.
    cbn [Transaction.Digest]. unfold ExternalTransaction_ToTransaction in Hb.
    cbn [Transaction.Digest] in Hb. rewrite Hb. reflexivity.
  - intros K. reflexivity.
  - intros W. split.
    + intros E. apply D. apply TransactionDigest_MarshalNil_inj; [|exact W|exact E].
      rewrite Dg. destruct W as (_ & W). split; [exact Fk | exact W].
    + intros Hb. apply D in Hb. rewrite Hb. reflexivity.
Qed.

Lemma toExternal_ToTransaction_witness :
  Transaction.Digest
    (ExternalTransaction_ToTransaction
       (ExternalTransaction.mk DeployTransactionKind NewFeePack
          (repeat Byte.xbb 20) 1 0 [] []))
  = Transaction.Digest demoExternalDeploy
  /\ TransactionDigest_MarshalNil
       (Transaction.Digest
          (ExternalTransaction_ToTransaction
             (ExternalTransaction.mk ExecutionTransactionKind NewFeePack
                (repeat Byte.xbb 20) 1 0 [] [])))
     <> TransactionDigest_MarshalNil (Transaction.Digest demoExternalResponse).
Proof.
  split.
  - destruct (toExternal_ToTransaction demoExternalDeploy
                (ExternalTransaction.mk DeployTransactionKind NewFeePack
                   (repeat Byte.xbb 20) 1 0 [] []) eq_refl) as (_ & D & _).
    apply D. right; left; reflexivity.
  - destruct (toExternal_ToTransaction demoExternalResponse
                (ExternalTransaction.mk ExecutionTransactionKind NewFeePack
                   (repeat Byte.xbb 20) 1 0 [] []) eq_refl) as (_ & _ & _ & _ & B).
    assert (W : wfDigest (Transaction.Digest demoExternalResponse))
      by (vm_compute; repeat split).
    intros E. apply (B W) in E. destruct E as [E | [E | E]]; discriminate.
Defined.

Section FurtherHashing.
Variable Address_ShardId : Address -> ShardId.
Variable IsMainShard : ShardId -> bool.
Variable Keccak256 : bytes -> Hash.
Variable ToShardedHash : Hash -> ShardId -> Hash.
Variable PrivateKey : Type.
Variable crypto_Sign : bytes -> PrivateKey -> bytes * option error.

Lemma Transaction_Sign_external (t : Transaction.t) (key : PrivateKey) :
  IsInternal t = false ->
  Transaction_Sign Keccak256 PrivateKey crypto_Sign t key
  = Ret (match crypto_Sign (Keccak256 (TransactionDigest_MarshalNil (signedDigest t))) key with
         | (_, Some err) => (t, Some err)
         | (sig, None) => (setSignature sig t, None)
         end).
Proof.
  intros I. unfold Transaction_Sign, toExternal, ExternalTransaction_Sign,
    ExternalTransaction_SigningHash. rewrite I.
  cbn [obind ExternalTransaction.Kind ExternalTransaction.FeePack
       ExternalTransaction.To ExternalTransaction.ChainId ExternalTransaction.Seqno
       ExternalTransaction.Data].
  fold (signedDigest t).
  destruct (crypto_Sign (Keccak256 (TransactionDigest_MarshalNil (signedDigest t))) key)
    as [sig [err|]]; reflexivity.
Qed.

Lemma toExternal_external (t : Transaction.t) :
  IsInternal t = false ->
  exists x, toExternal t = Ret x
            /\ fst (ExternalTransaction_SigningHash Keccak256 x)
               = Keccak256 (TransactionDigest_MarshalNil (signedDigest t)).
Proof.
  intros I. unfold toExternal. rewrite I. eexists. split; reflexivity.
Qed.

(** X6. [Transaction.Sign], when it returns, has changed nothing but
    Signature: the digest, and with it the signing hash, and every other
    field are those of before; if it returns an error the receiver is
    unchanged; if it succeeds Signature is what the signer gave for the
    external signing hash; and signing the result again with the same key
    gives the same result. *)
Theorem Transaction_Sign_effect (t t' : Transaction.t) (key : PrivateKey)
  (e : option error) :
  Transaction_Sign Keccak256 PrivateKey crypto_Sign t key = Ret (t', e) ->
  (Transaction.Digest t' = Transaction.Digest t
   /\ Transaction.From t' = Transaction.From t
   /\ Transaction.TxId t' = Transaction.TxId t
   /\ Transaction.RefundTo t' = Transaction.RefundTo t
   /\ Transaction.BounceTo t' = Transaction.BounceTo t
   /\ Transaction.Value t' = Transaction.Value t
   /\ Transaction.RequestId t' = Transaction.RequestId t
   /\ Transaction.Token t' = Transaction.Token t
   /\ Transaction.RequestChain t' = Transaction.RequestChain t)
  /\ Transaction_SigningHash Keccak256 t' = Transaction_SigningHash Keccak256 t
  /\ (e <> None -> t' = t)
  /\ (e = None ->
      exists x, toExternal t = Ret x
                /\ crypto_Sign (fst (ExternalTransaction_SigningHash Keccak256 x)) key
                   = (Transaction.Signature t', None))
  /\ Transaction_Sign Keccak256 PrivateKey crypto_Sign t' key = Ret (t', e).
Proof.
  destruct (IsInternal t) eqn:I.
  { unfold Transaction_Sign, toExternal. rewrite I. discriminate. }
  rewrite (Transaction_Sign_external t key I).
  destruct (toExternal_external t I) as (x & Hx & Hh).
  destruct (crypto_Sign (Keccak256 (TransactionDigest_MarshalNil (signedDigest t))) key)
    as [sig [err|]] eqn:S; intros H; injection H as <- <-.
  - rewrite (Transaction_Sign_external t key I), S.
    repeat split; try reflexivity. intros H. discriminate.
  - assert (I' : IsInternal (setSignature sig t) = false) by exact I.
    rewrite (Transaction_Sign_external _ key I').
    change (signedDigest (setSignature sig t)) with (signedDigest t). rewrite S.
    split; [repeat split|]. split; [reflexivity|].
    split; [intros H; exfalso; apply H; reflexivity|].
    split; [|reflexivity].
    intros _. exists x. split; [exact Hx|]. rewrite Hh. exact S.
Qed.

(** X11. [Transaction.Hash] never panics, although it calls [toExternal];
    and the hash of a transaction without the Internal bit is a function of
    its digest and its Signature only: two such transactions that differ
    in From, TxId, RefundTo, BounceTo, Value, RequestId, Token or
    RequestChain have the same hash. *)
Theorem Transaction_Hash_total (t1 t2 : Transaction.t) :
  (exists h, Transaction_Hash Address_ShardId Keccak256 ToShardedHash t1 = Ret h)
  /\ (IsInternal t1 = false ->
      Transaction.Digest t1 = Transaction.Digest t2 ->
      Transaction.Signature t1 = Transaction.Signature t2 ->
      Transaction_Hash Address_ShardId Keccak256 ToShardedHash t1
      = Transaction_Hash Address_ShardId Keccak256 ToShardedHash t2).
Proof.
  split.
  - unfold Transaction_Hash, IsExternal, toExternal.
    destruct (IsInternal t1); cbn [negb obind]; eexists; reflexivity.
  - intros I D S.
    assert (I2 : IsInternal t2 = false).
    { unfold IsInternal, Transaction.Flags in *. rewrite <- D. exact I. }
    unfold Transaction_Hash, IsExternal, toExternal. rewrite I, I2.
    cbn [negb obind].
    unfold IsDeploy, IsRefund, Transaction.Flags, Transaction.FeePack,
      Transaction.To, Transaction.ChainId, Transaction.Seqno, Transaction.Data.
    rewrite D, S. reflexivity.
Qed.

(** X10. A promoted payload is never treated as external: whatever the
    payload, [toExternal] and [Sign] panic on [p.ToTransaction(from,
    seqno)], [VerifyFlags] never answers with the error of external
    transactions, and [Hash] is the sharded hash of the canonical bytes of
    the whole transaction under the shard of the payload's To. *)
Theorem payload_never_external (p : InternalTransactionPayload.t)
  (from : Address) (seqno : Seqno) :
  IsExternal (InternalTransactionPayload_ToTransaction p from seqno) = false
  /\ (exists msg,
        toExternal (InternalTransactionPayload_ToTransaction p from seqno) = Panic msg)
  /\ (forall key : PrivateKey,
        exists msg,
          Transaction_Sign Keccak256 PrivateKey crypto_Sign
            (InternalTransactionPayload_ToTransaction p from seqno) key = Panic msg)
  /\ VerifyFlags Address_ShardId IsMainShard
       (InternalTransactionPayload_ToTransaction p from seqno)
     <> Some ErrExternalRoles
  /\ Transaction_Hash Address_ShardId Keccak256 ToShardedHash
       (InternalTransactionPayload_ToTransaction p from seqno)
     = Ret (ToShardedHash
              (Keccak256 (Transaction_MarshalNil
                            (InternalTransactionPayload_ToTransaction p from seqno)))
              (Address_ShardId (InternalTransactionPayload.To p))).
Proof.
  destruct (payload_flag_bits p from seqno) as (B0 & _).
  set (t := InternalTransactionPayload_ToTransaction p from seqno) in *.
  assert (I : IsInternal t = true) by exact B0.
  assert (To : Transaction.To t = InternalTransactionPayload.To p).
  { unfold t, InternalTransactionPayload_ToTransaction.
    destruct (InternalTransactionPayload.Bounce p); reflexivity. }
  unfold IsExternal, Transaction_Sign, Transaction_Hash, IsExternal, toExternal,
    VerifyFlags. rewrite I, To. cbn [negb obind].
  split; [reflexivity|]. split; [eexists; reflexivity|].
  split; [intros key; eexists; reflexivity|]. split; [|reflexivity].
  match goal with |- context [if ?c then Some ErrInternalRoles else _] =>
    destruct c end; [discriminate|].
  destruct (IsMainShard (Address_ShardId (InternalTransactionPayload.To p)) &&
            negb (IsMainShard (Address_ShardId (Transaction.From t))));
    discriminate.
Qed.

End FurtherHashing.

Lemma Transaction_Sign_effect_witness :
  exists t',
    Transaction_Sign demoHash unit demoSign demoExternal tt = Ret (t', None)
    /\ Transaction.Digest t' = Transaction.Digest demoExternal.
Proof.
  eexists. split; [reflexivity|].
  apply (Transaction_Sign_effect demoHash unit demoSign demoExternal _ tt None).
  reflexivity.
Defined.

Lemma Transaction_Hash_total_witness :
  Transaction_Hash demoShardId demoHash demoSharded demoExternal
  = Transaction_Hash demoShardId demoHash demoSharded demoExternalOther.
Proof.
  apply (Transaction_Hash_total demoShardId demoHash demoSharded
           demoExternal demoExternalOther); reflexivity.
Defined.

Section FurtherVerifyFlags.
Variable Address_ShardId : Address -> ShardId.
Variable IsMainShard : ShardId -> bool.

(** Splits a goal on the flag bits, the request id and the two main-shard
    tests of a transaction. *)
Ltac verify_cases m :=
  destruct (N.eqb_spec (Transaction.RequestId m) 0);
  destruct (N.testbit (Bits (Transaction.Flags m)) 0);
  destruct (N.testbit (Bits (Transaction.Flags m)) 1);
  destruct (N.testbit (Bits (Transaction.Flags m)) 2);
  destruct (N.testbit (Bits (Transaction.Flags m)) 3);
  destruct (IsMainShard (Address_ShardId (Transaction.To m)));
  destruct (IsMainShard (Address_ShardId (Transaction.From m)));
  cbn; unfold countTrue; cbn.

(** X7. Which error [VerifyFlags] returns: the role error of internal
    transactions exactly when the Internal bit is set with two or more
    roles; the role error of external transactions exactly when the
    Internal bit is clear with a Refund bit, a Bounce bit or a request id;
    the main-shard error exactly when the roles are in order, To is in the
    main shard and From is not. The role checks come first, and no other
    error is returned. *)
Theorem VerifyFlags_which_error (m : Transaction.t) :
  (VerifyFlags Address_ShardId IsMainShard m = Some ErrInternalRoles <->
   flagBit m 0 = true /\ (2 <= countTrue (roles m))%nat)
  /\ (VerifyFlags Address_ShardId IsMainShard m = Some ErrExternalRoles <->
      flagBit m 0 = false
      /\ (flagBit m 2 = true \/ flagBit m 3 = true \/ Transaction.RequestId m <> 0))
  /\ (VerifyFlags Address_ShardId IsMainShard m = Some ErrMainShardGate <->
      IsMainShard (Address_ShardId (Transaction.To m)) = true
      /\ IsMainShard (Address_ShardId (Transaction.From m)) = false
      /\ (flagBit m 0 = true -> (countTrue (roles m) <= 1)%nat)
      /\ (flagBit m 0 = false ->
          flagBit m 2 = false /\ flagBit m 3 = false /\ Transaction.RequestId m = 0))
  /\ (forall e, VerifyFlags Address_ShardId IsMainShard m = Some e ->
                e = ErrInternalRoles \/ e = ErrExternalRoles \/ e = ErrMainShardGate).
Proof.
  unfold VerifyFlags, roles, flagBit. unfold_predicates.
  rewrite !countTrue_cons.
  verify_cases m;
    (split; [|split; [|split]]);
    try (intros e0 He; injection He as <-; tauto);
    try (intros e0 He; discriminate);
    (split; intros H;
     try discriminate; try reflexivity;
     try (exfalso; lia);
     try (repeat split; try reflexivity; try assumption; try lia;
          intros; try discriminate; repeat split; try reflexivity; try assumption; fail);
     try (destruct H as (H1 & H2); try discriminate; try lia;
          destruct H2 as [H2|[H2|H2]]; try discriminate; congruence);
     try (destruct H as (H1 & H2 & H3 & H4); try discriminate;
          first [ specialize (H3 eq_refl); lia
                | destruct (H4 eq_refl) as (A & B & C); try discriminate; congruence ])).
Qed.

(** X8. What a transaction that passes [VerifyFlags] satisfies, in the
    predicates of the file: a system transaction comes from the main
    shard; an external one is no refund, no bounce and no request; an
    internal one has at most one role; a bounce is internal and is neither
    a deploy, nor a refund, nor a request or response. *)
Theorem VerifyFlags_pass (m : Transaction.t) :
  VerifyFlags Address_ShardId IsMainShard m = None ->
  (IsSystem Address_ShardId IsMainShard m = true ->
   IsMainShard (Address_ShardId (Transaction.From m)) = true)
  /\ (IsExternal m = true ->
      IsRefund m = false /\ IsBounce m = false /\ IsRequest m = false
      /\ Transaction.RequestId m = 0)
  /\ (IsInternal m = true -> (countTrue (roles m) <= 1)%nat)
  /\ (IsBounce m = true ->
      IsInternal m = true /\ IsDeploy m = false /\ IsRefund m = false
      /\ IsRequestOrResponse m = false).
Proof.
  unfold VerifyFlags, IsSystem, IsRequest, roles, flagBit. unfold_predicates.
  rewrite !countTrue_cons.
  verify_cases m; intros H; try discriminate;
    repeat split; intros; try discriminate; try reflexivity; try assumption;
    try lia; repeat split; try reflexivity; try assumption;
    destruct (N.testbit (Bits (Transaction.Flags m)) 4); reflexivity.
Qed.

(** X9. [VerifyFlags] on a freshly promoted external transaction: From is
    the placeholder To, so the main-shard gate never fires, and the only
    promotion it rejects is that of a Refund kind; every other kind, a
    Response kind included, passes. *)
Theorem VerifyFlags_ToTransaction (x : ExternalTransaction.t) :
  VerifyFlags Address_ShardId IsMainShard (ExternalTransaction_ToTransaction x)
  = if ExternalTransaction.Kind x =? RefundTransactionKind
    then Some ErrExternalRoles else None.
Proof.
  unfold VerifyFlags, ExternalTransaction_ToTransaction. unfold_predicates.
  cbn [Transaction.Flags Transaction.Digest TransactionDigest.Flags
       Transaction.To Transaction.From Transaction.RequestId TransactionDigest.To].
  rewrite FromKind_external. unfold RefundTransactionKind.
  destruct (N.eqb_spec (ExternalTransaction.Kind x) 1) as [E|_].
  - rewrite E. cbn.
    destruct (IsMainShard (Address_ShardId (ExternalTransaction.To x))); reflexivity.
  - destruct (ExternalTransaction.Kind x =? 2); [reflexivity|].
    destruct (ExternalTransaction.Kind x =? 3); cbn;
      destruct (IsMainShard (Address_ShardId (ExternalTransaction.To x))); reflexivity.
Qed.

End FurtherVerifyFlags.

Lemma VerifyFlags_pass_witness :
  VerifyFlags demoShardId demoIsMainShard demoExternal = None
  /\ (IsExternal demoExternal = true ->
      IsRefund demoExternal = false /\ IsBounce demoExternal = false
      /\ IsRequest demoExternal = false /\ Transaction.RequestId demoExternal = 0).
Proof.
  split; [reflexivity|].
  apply (VerifyFlags_pass demoShardId demoIsMainShard demoExternal). reflexivity.
Defined.

(** X12. The result of [TransactionGasPrice]: without an error the price
    is at least the base fee, at most the base fee plus the priority fee,
    and at most MaxFeePerGas when that is not zero; with an error the
    value is zero, MaxFeePerGas is not zero and lies below the base fee,
    and the error carries both. *)
Theorem TransactionGasPrice_bounds (m : Transaction.t) (b p : Value)
  (e : option error) :
  TransactionGasPrice m b = (p, e) ->
  (e = None ->
   b <= p /\ p <= b + Transaction.MaxPriorityFeePerGas m
   /\ (Transaction.MaxFeePerGas m <> 0 -> p <= Transaction.MaxFeePerGas m))
  /\ (e <> None ->
      p = 0 /\ e = Some (ErrMaxFeeBelowBase (Transaction.MaxFeePerGas m) b)
      /\ Transaction.MaxFeePerGas m <> 0 /\ Transaction.MaxFeePerGas m < b).
Proof.
  unfold TransactionGasPrice, Value_IsZero, Value_Cmp, Value_Add, cmp_gt0, Value0.
  set (mx := Transaction.MaxFeePerGas m).
  set (pr := Transaction.MaxPriorityFeePerGas m).
  destruct (N.eqb_spec mx 0) as [H0|H0]; cbn [negb andb].
  - intros H. injection H as <- <-. split; [intros _; lia | intros H; congruence].
  - destruct (N.compare_spec (b + pr) mx) as [E|L|G].
    + intros H. injection H as <- <-. split; [intros _; lia | intros H; congruence].
    + intros H. injection H as <- <-. split; [intros _; lia | intros H; congruence].
    + destruct (N.compare_spec b mx) as [E'|L'|G'];
        intros H; injection H as <- <-;
        (split; [intros H; first [discriminate | lia]
                | intros H; first [congruence | repeat split; auto]]).
Qed.

Lemma TransactionGasPrice_bounds_witness :
  4 <= 5 /\ 5 <= 4 + Transaction.MaxPriorityFeePerGas demoCapped
  /\ (Transaction.MaxFeePerGas demoCapped <> 0 ->
      5 <= Transaction.MaxFeePerGas demoCapped).
Proof.
  apply (TransactionGasPrice_bounds demoCapped 4 5 None); reflexivity.
Defined.

(** X13. [TransactionGasPrice] in the base fee: if it succeeds for a base
    fee it succeeds for every lower one, with a price that is not higher;
    once it fails it fails for every higher base fee. *)
Theorem TransactionGasPrice_monotone (m : Transaction.t) (b b' : Value) :
  b <= b' ->
  (snd (TransactionGasPrice m b') = None ->
   snd (TransactionGasPrice m b) = None
   /\ fst (TransactionGasPrice m b) <= fst (TransactionGasPrice m b'))
  /\ (snd (TransactionGasPrice m b) <> None ->
      snd (TransactionGasPrice m b') <> None).
Proof.
  intros Hb.
  unfold TransactionGasPrice, Value_IsZero, Value_Cmp, Value_Add, cmp_gt0, Value0.
  set (mx := Transaction.MaxFeePerGas m).
  set (pr := Transaction.MaxPriorityFeePerGas m).
  destruct (N.eqb_spec mx 0) as [H0|H0]; cbn [negb andb fst snd].
  - split; [intros _; split; [reflexivity | lia] | intros H; exact H].
  - destruct (N.compare_spec (b + pr) mx) as [E|L|G];
    destruct (N.compare_spec (b' + pr) mx) as [E1|L1|G1];
    destruct (N.compare_spec b mx) as [E2|L2|G2];
    destruct (N.compare_spec b' mx) as [E3|L3|G3];
    cbn [fst snd]; try lia;
    (split; [intros H; first [discriminate | split; [reflexivity | lia]]
            | intros H; first [exact H | exfalso; apply H; reflexivity
                              | discriminate ]]).
Qed.

Lemma TransactionGasPrice_monotone_witness :
  snd (TransactionGasPrice demoCapped 2) = None
  /\ fst (TransactionGasPrice demoCapped 2) <= fst (TransactionGasPrice demoCapped 4).
Proof.
  apply (TransactionGasPrice_monotone demoCapped 2 4); [discriminate | reflexivity].
Defined.

(** ** Textual form of the flags, continued *)

(** X14. [TransactionFlags.String] lists the tokens of [MarshalJSON],
    without quotes and without brackets, separated by a comma and a space,
    for every flag byte. *)
Theorem TransactionFlags_String_tokens (f : TransactionFlags) :
  TransactionFlags_String f = String.concat ", " (flagTokens f)
  /\ fst (TransactionFlags_MarshalJSON f) = renderArray (flagTokens f).
Proof.
  unfold TransactionFlags_String, TransactionFlags_MarshalJSON, flagTokens,
    renderArray, Flags_IsInternal, Flags_IsDeploy, Flags_IsRefund, Flags_IsBounce,
    Flags_IsResponse, GetBit, TransactionFlagInternal, TransactionFlagDeploy,
    TransactionFlagRefund, TransactionFlagBounce, TransactionFlagResponse.
  destruct (N.testbit (Bits f) 0), (N.testbit (Bits f) 1), (N.testbit (Bits f) 2),
    (N.testbit (Bits f) 3), (N.testbit (Bits f) 4); split; reflexivity.
Qed.

Lemma testbit_low_mod32 (n i : N) :
  i < 5 -> N.testbit (n mod 32) i = N.testbit n i.
Proof.
  intros H. change 32 with (2 ^ 5). apply N.mod_pow2_bits_low, H.
Qed.

Lemma MarshalJSON_mod32 (f : TransactionFlags) :
  TransactionFlags_MarshalJSON f = TransactionFlags_MarshalJSON (mkBits (Bits f mod 32)).
Proof.
  unfold TransactionFlags_MarshalJSON, Flags_IsInternal, Flags_IsDeploy,
    Flags_IsRefund, Flags_IsBounce, Flags_IsResponse, GetBit,
    TransactionFlagInternal, TransactionFlagDeploy, TransactionFlagRefund,
    TransactionFlagBounce, TransactionFlagResponse.
  cbn [Bits]. rewrite !testbit_low_mod32 by lia. reflexivity.
Qed.

(** X15. The JSON round trip for every flag byte: [UnmarshalJSON] of the
    output of [MarshalJSON] never fails and gives the flags with the
    reserved bits 5 to 7 cleared, whatever the receiver held; so a flag
    byte with a reserved bit does not survive the round trip. *)
Theorem flags_json_roundtrip_any (f m0 : TransactionFlags) :
  TransactionFlags_UnmarshalJSON m0 (fst (TransactionFlags_MarshalJSON f))
  = (mkBits (Bits f mod 32), None)
  /\ (TransactionFlags_UnmarshalJSON m0 (fst (TransactionFlags_MarshalJSON f))
      = (f, None) <-> Bits f < 32).
Proof.
  assert (E : TransactionFlags_UnmarshalJSON m0 (fst (TransactionFlags_MarshalJSON f))
              = (mkBits (Bits f mod 32), None)).
  { rewrite MarshalJSON_mod32.
    assert (H : Bits f mod 32 < 32) by (apply N.mod_lt; lia).
    destruct (flags_json_all (Bits f mod 32) H) as (_ & U & A).
    unfold TransactionFlags_UnmarshalJSON, Clear. rewrite U, A. reflexivity. }
  split; [exact E|]. rewrite E. destruct f as [n]. cbn [Bits]. split.
  - intros H. injection H as H. rewrite <- H. apply N.mod_lt. lia.
  - intros H. rewrite N.mod_small by exact H. reflexivity.
Qed.

Lemma testbit_high_256 (n i : N) : n < 256 -> 8 <= i -> N.testbit n i = false.
Proof.
  intros Hn Hi. rewrite <- (N.mod_small n 256) by exact Hn.
  change 256 with (2 ^ 8). apply N.mod_pow2_bits_high, Hi.
Qed.

Lemma SetBit_bound (m : BitFlags) (j : N) : Bits (SetBit m j) < 256.
Proof. unfold SetBit, wrap8. cbn [Bits]. apply N.mod_lt. lia. Qed.

Lemma SetBit_testbit (m : BitFlags) (i j : N) :
  Bits m < 256 -> j < 8 ->
  N.testbit (Bits (SetBit m j)) i = N.testbit (Bits m) i || (i =? j).
Proof.
  intros Hm Hj. unfold SetBit. cbn [Bits]. rewrite wrap8_land.
  rewrite N.land_spec, N.lor_spec, N.shiftl_1_l, N.pow2_bits_eqb.
  rewrite (N.eqb_sym j i).
  destruct (N.lt_ge_cases i 8) as [Hi|Hi].
  - change 255 with (N.ones 8). rewrite N.ones_spec_low by exact Hi.
    apply andb_true_r.
  - rewrite (testbit_high_256 _ i Hm Hi).
    destruct (N.eqb_spec i j); [lia|].
    change 255 with (N.ones 8). rewrite N.ones_spec_high by exact Hi. reflexivity.
Qed.

Lemma applyToken_bound (m : TransactionFlags) (v : string) :
  Bits m < 256 -> Bits (applyToken m v) < 256.
Proof.
  intros H. unfold applyToken. case_string_eqb; first [apply SetBit_bound | exact H].
Qed.

(** The bit a token stands for, if it is one of the five. *)
Lemma applyToken_testbit (m : TransactionFlags) (v : string) (i : N) :
  Bits m < 256 ->
  N.testbit (Bits (applyToken m v)) i
  = N.testbit (Bits m) i
    || ((i =? 0) && String.eqb "Internal" v) || ((i =? 1) && String.eqb "Deploy" v)
    || ((i =? 2) && String.eqb "Refund" v) || ((i =? 3) && String.eqb "Bounce" v)
    || ((i =? 4) && String.eqb "Response" v).
Proof.
  intros Hm. unfold applyToken, TransactionFlagInternal, TransactionFlagDeploy,
    TransactionFlagRefund, TransactionFlagBounce, TransactionFlagResponse.
  destruct (String.eqb_spec v "Internal") as [->|N0];
    [rewrite SetBit_testbit by (try exact Hm; lia); cbn;
     destruct (N.testbit (Bits m) i), (i =? 0), (i =? 1), (i =? 2), (i =? 3), (i =? 4);
     reflexivity|].
  destruct (String.eqb_spec v "Deploy") as [->|N1];
    [rewrite SetBit_testbit by (try exact Hm; lia); cbn;
     destruct (N.testbit (Bits m) i), (i =? 0), (i =? 1), (i =? 2), (i =? 3), (i =? 4);
     reflexivity|].
  destruct (String.eqb_spec v "Refund") as [->|N2];
    [rewrite SetBit_testbit by (try exact Hm; lia); cbn;
     destruct (N.testbit (Bits m) i), (i =? 0), (i =? 1), (i =? 2), (i =? 3), (i =? 4);
     reflexivity|].
  destruct (String.eqb_spec v "Bounce") as [->|N3];
    [rewrite SetBit_testbit by (try exact Hm; lia); cbn;
     destruct (N.testbit (Bits m) i), (i =? 0), (i =? 1), (i =? 2), (i =? 3), (i =? 4);
     reflexivity|].
  destruct (String.eqb_spec v "Response") as [->|N4];
    [rewrite SetBit_testbit by (try exact Hm; lia); cbn;
     destruct (N.testbit (Bits m) i), (i =? 0), (i =? 1), (i =? 2), (i =? 3), (i =? 4);
     reflexivity|].
  destruct (String.eqb_spec "Internal" v); [congruence|].
  destruct (String.eqb_spec "Deploy" v); [congruence|].
  destruct (String.eqb_spec "Refund" v); [congruence|].
  destruct (String.eqb_spec "Bounce" v); [congruence|].
  destruct (String.eqb_spec "Response" v); [congruence|].
  rewrite !andb_false_r, !orb_false_r. reflexivity.
Qed.

Lemma fold_applyToken_testbit (s : list string) :
  forall (m : TransactionFlags) (i : N),
    Bits m < 256 ->
    N.testbit (Bits (fold_left applyToken s m)) i
    = N.testbit (Bits m) i
      || ((i =? 0) && occurs "Internal" s) || ((i =? 1) && occurs "Deploy" s)
      || ((i =? 2) && occurs "Refund" s) || ((i =? 3) && occurs "Bounce" s)
      || ((i =? 4) && occurs "Response" s).
Proof.
  induction s as [|v s IH]; intros m i Hm.
  - cbn. rewrite !andb_false_r, !orb_false_r. reflexivity.
  - cbn [fold_left]. rewrite IH by (apply applyToken_bound, Hm).
    rewrite applyToken_testbit by exact Hm. unfold occurs. cbn [existsb].
    destruct (N.testbit (Bits m) i), (i =? 0), (i =? 1), (i =? 2), (i =? 3), (i =? 4),
      (String.eqb "Internal" v), (String.eqb "Deploy" v), (String.eqb "Refund" v),
      (String.eqb "Bounce" v), (String.eqb "Response" v);
      cbn [andb orb]; try reflexivity;
      rewrite ?orb_true_r; reflexivity.
Qed.

Lemma bits_below_32 (n : N) :
  (forall i, 5 <= i -> N.testbit n i = false) -> n < 32.
Proof.
  intros H. assert (E : n mod 32 = n).
  { apply N.bits_inj. intros i. change 32 with (2 ^ 5).
    destruct (N.lt_ge_cases i 5) as [Hi|Hi].
    - apply N.mod_pow2_bits_low, Hi.
    - rewrite N.mod_pow2_bits_high by exact Hi. symmetry. apply H, Hi. }
  rewrite <- E. apply N.mod_lt. lia.
Qed.

(** X16. What [UnmarshalJSON] stores when the input parses: each of the
    five bits is set exactly when its token occurs in the array, however
    often and wherever; no reserved bit is ever set; and nothing of what
    the receiver held before remains. *)
Theorem UnmarshalJSON_bits (m : TransactionFlags) (data : string)
  (s : list string) :
  json_Unmarshal data = Some s ->
  snd (TransactionFlags_UnmarshalJSON m data) = None
  /\ Flags_IsInternal (fst (TransactionFlags_UnmarshalJSON m data))
     = occurs "Internal" s
  /\ Flags_IsDeploy (fst (TransactionFlags_UnmarshalJSON m data))
     = occurs "Deploy" s
  /\ Flags_IsRefund (fst (TransactionFlags_UnmarshalJSON m data))
     = occurs "Refund" s
  /\ Flags_IsBounce (fst (TransactionFlags_UnmarshalJSON m data))
     = occurs "Bounce" s
  /\ Flags_IsResponse (fst (TransactionFlags_UnmarshalJSON m data))
     = occurs "Response" s
  /\ Bits (fst (TransactionFlags_UnmarshalJSON m data)) < 32
  /\ forall m', TransactionFlags_UnmarshalJSON m' data
                = TransactionFlags_UnmarshalJSON m data.
Proof.
  intros E. unfold TransactionFlags_UnmarshalJSON, Clear. rewrite E.
  cbn [fst snd].
  assert (Z : Bits (mkBits 0) < 256) by reflexivity.
  pose proof (fun i => fold_applyToken_testbit s (mkBits 0) i Z) as T.
  cbn [Bits] in T.
  unfold Flags_IsInternal, Flags_IsDeploy, Flags_IsRefund, Flags_IsBounce,
    Flags_IsResponse, GetBit, TransactionFlagInternal, TransactionFlagDeploy,
    TransactionFlagRefund, TransactionFlagBounce, TransactionFlagResponse.
  split; [reflexivity|].
  split; [rewrite T; cbn; rewrite ?orb_false_r; reflexivity|].
  split; [rewrite T; cbn; rewrite ?orb_false_r; reflexivity|].
  split; [rewrite T; cbn; rewrite ?orb_false_r; reflexivity|].
  split; [rewrite T; cbn; rewrite ?orb_false_r; reflexivity|].
  split; [rewrite T; cbn; rewrite ?orb_false_r; reflexivity|].
  split; [|reflexivity].
  apply bits_below_32. intros i Hi. rewrite T.
  rewrite N.bits_0.
  destruct (N.eqb_spec i 0); [lia|]. destruct (N.eqb_spec i 1); [lia|].
  destruct (N.eqb_spec i 2); [lia|]. destruct (N.eqb_spec i 3); [lia|].
  destruct (N.eqb_spec i 4); [lia|]. reflexivity.
Qed.

Lemma UnmarshalJSON_bits_witness :
  Flags_IsBounce
    (fst (TransactionFlags_UnmarshalJSON (mkBits 5)
            (renderArray ["Bounce"%string; "Later"%string; "Bounce"%string])))
  = true
  /\ Flags_IsInternal
       (fst (TransactionFlags_UnmarshalJSON (mkBits 5)
               (renderArray ["Bounce"%string; "Later"%string; "Bounce"%string])))
     = false.
Proof.
  destruct (UnmarshalJSON_bits (mkBits 5)
              (renderArray ["Bounce"%string; "Later"%string; "Bounce"%string])
              ["Bounce"%string; "Later"%string; "Bounce"%string] eq_refl)
    as (_ & I & _ & _ & B & _).
  split; [rewrite B | rewrite I]; reflexivity.
Defined.

(** ** Decoding unsigned integers *)

Lemma le_digits_zero (fuel : nat) : le_digits fuel 0 = [].
Proof. destruct fuel; reflexivity. Qed.

Lemma le_digits_last (fuel : nat) :
  forall n, n < 2 ^ N.of_nat fuel -> n <> 0 ->
            exists l x, le_digits fuel n = l ++ [x] /\ Byte.to_N x <> 0.
Proof.
  induction fuel as [|fuel IH]; intros n Hn Hz.
  - simpl in Hn. lia.
  - cbn [le_digits]. destruct (N.eqb_spec n 0) as [|_]; [contradiction|].
    destruct (N.eq_dec (n / 256) 0) as [Hq|Hq].
    + rewrite Hq, le_digits_zero. exists [], (byte_of_N (n mod 256)).
      split; [reflexivity|].
      rewrite byte_of_N_to_N by (apply N.mod_lt; lia).
      pose proof (N.div_mod n 256). lia.
    + destruct (IH (n / 256)) as (l & x & E & Hx); [|exact Hq|].
      * rewrite Nat2N.inj_succ, N.pow_succ_r' in Hn.
        apply N.Div0.div_lt_upper_bound.
        assert (2 ^ N.of_nat fuel <> 0) by (apply N.pow_nonzero; lia). lia.
      * rewrite E. exists (byte_of_N (n mod 256) :: l), x.
        split; [reflexivity | exact Hx].
Qed.

(** The shortest big-endian form has no leading zero byte. *)
Lemma be_bytes_head (n : N) :
  n <> 0 -> exists x l, be_bytes n = x :: l /\ Byte.to_N x <> 0.
Proof.
  intros Hz. unfold be_bytes.
  destruct (le_digits_last (N.to_nat (N.size n)) n) as (l & x & E & Hx).
  - rewrite N2Nat.id. apply N.size_gt.
  - exact Hz.
  - rewrite E, rev_app_distr. exists x, (rev l). split; [reflexivity | exact Hx].
Qed.

Lemma be_from_lower (l : bytes) : forall a, a * 256 ^ blen l <= be_from a l.
Proof.
  unfold blen. induction l as [|x l IH]; intros a.
  - simpl. lia.
  - cbn [be_from fold_left length]. fold (be_from (a * 256 + Byte.to_N x) l).
    specialize (IH (a * 256 + Byte.to_N x)).
    rewrite Nat2N.inj_succ, N.pow_succ_r'. nia.
Qed.

Lemma rlp_read_uint_encoded (maxBytes n : N) (rest : bytes) :
  maxBytes < 56 -> n < 256 ^ maxBytes ->
  rlp_read_uint maxBytes (rlp_uint n ++ rest) = Some (n, rest).
Proof.
  intros Hk Hn. unfold rlp_uint.
  destruct (N.eq_dec n 0) as [->|Hz].
  { change (be_bytes 0) with (@nil byte). cbn [rlp_string rlp_header blen length
      N.of_nat N.ltb N.compare app]. cbn.
    destruct (N.ltb_spec maxBytes 0); [lia|].
    destruct (N.ltb_spec (blen rest) 0); [lia|]. reflexivity. }
  destruct (be_bytes_head n Hz) as (x & l & E & Hx).
  pose proof (be_value_be_bytes n) as V. rewrite E in V.
  pose proof (be_bytes_length (N.to_nat maxBytes) n) as L.
  rewrite N2Nat.id, E in L. specialize (L Hn). cbn [length] in L.
  rewrite E.
  assert (Big : l <> [] -> 128 <= n).
  { intros Hl. rewrite <- V. unfold be_value. cbn [fold_left].
    fold (be_from (0 * 256 + Byte.to_N x) l).
    pose proof (be_from_lower l (0 * 256 + Byte.to_N x)) as Lo.
    assert (256 <= 256 ^ blen l).
    { destruct l as [|y l']; [congruence|]. unfold blen. cbn [length].
      rewrite Nat2N.inj_succ, N.pow_succ_r'.
      assert (256 ^ N.of_nat (length l') <> 0) by (apply N.pow_nonzero; lia). lia. }
    nia. }
  assert (Long : rlp_read_uint maxBytes
                   ((rlp_header 128 (blen (x :: l)) ++ x :: l) ++ rest)
                 = Some (n, rest) \/ (l = [] /\ Byte.to_N x < 128)).
  { destruct (N.ltb_spec n 128) as [Hs|Hb];
      [right; split;
       [destruct l; [reflexivity | exfalso; specialize (Big ltac:(discriminate)); lia]
       | destruct l; [unfold be_value in V; cbn in V; lia
                     | exfalso; specialize (Big ltac:(discriminate)); lia]] |].
    left. unfold rlp_header.
    assert (Hl : blen (x :: l) <= maxBytes) by (unfold blen; cbn [length]; lia).
    destruct (N.ltb_spec (blen (x :: l)) 56); [|lia].
    cbn [app rlp_read_uint]. rewrite byte_of_N_to_N by lia.
    destruct (N.ltb_spec (128 + blen (x :: l)) 128); [lia|].
    destruct (N.ltb_spec (128 + blen (x :: l)) 184); [|lia].
    replace (128 + blen (x :: l) - 128) with (blen (x :: l)) by lia.
    destruct (N.ltb_spec maxBytes (blen (x :: l))); [lia|].
    change (x :: l ++ rest) with ((x :: l) ++ rest).
    destruct (N.ltb_spec (blen ((x :: l) ++ rest)) (blen (x :: l)));
      [rewrite blen_app in *; lia|].
    rewrite blen_to_nat, firstn_length_app, skipn_length_app.
    destruct (N.eqb_spec (Byte.to_N x) 0); [contradiction|].
    rewrite V. destruct (N.ltb_spec n 128); [lia|]. reflexivity. }
  destruct Long as [Long | [-> Hx128]].
  - unfold rlp_string. destruct l as [|y l']; [|exact Long].
    destruct (N.ltb_spec (Byte.to_N x) 128) as [Hs|_]; [|exact Long].
    cbn [app rlp_read_uint]. destruct (N.ltb_spec (Byte.to_N x) 128); [|lia].
    destruct (N.eqb_spec (Byte.to_N x) 0); [contradiction|].
    unfold be_value in V. cbn in V. rewrite V. reflexivity.
  - unfold rlp_string. destruct (N.ltb_spec (Byte.to_N x) 128); [|lia].
    cbn [app rlp_read_uint]. destruct (N.ltb_spec (Byte.to_N x) 128); [|lia].
    destruct (N.eqb_spec (Byte.to_N x) 0); [contradiction|].
    unfold be_value in V. cbn in V. rewrite V. reflexivity.
Qed.

Lemma rlp_read_uint_bound (maxBytes : N) (input rest : bytes) (v : N) :
  1 <= maxBytes ->
  rlp_read_uint maxBytes input = Some (v, rest) -> v < 256 ^ maxBytes.
Proof.
  intros Hk. unfold rlp_read_uint. destruct input as [|b r]; [discriminate|].
  assert (P : 256 <= 256 ^ maxBytes).
  { replace maxBytes with (N.succ (maxBytes - 1)) by lia. rewrite N.pow_succ_r'.
    assert (256 ^ (maxBytes - 1) <> 0) by (apply N.pow_nonzero; lia). lia. }
  destruct (N.ltb_spec (Byte.to_N b) 128) as [Hlo|Hhi].
  - destruct (Byte.to_N b =? 0); [discriminate|]. intros Hr. injection Hr as <- _. lia.
  - destruct (Byte.to_N b <? 184); [|discriminate].
    destruct (N.ltb_spec maxBytes (Byte.to_N b - 128)) as [|Hs]; [discriminate|].
    destruct (blen r <? Byte.to_N b - 128); [discriminate|].
    destruct (firstn (N.to_nat (Byte.to_N b - 128)) r) as [|x body] eqn:F.
    + intros Hr. injection Hr as <- _. lia.
    + destruct (Byte.to_N x =? 0); [discriminate|].
      destruct (be_value (x :: body) <? 128); [discriminate|].
      intros Hr. injection Hr as <- _.
      pose proof (be_value_bound (x :: body)) as B.
      assert (Hlen : blen (x :: body) <= Byte.to_N b - 128).
      { unfold blen. rewrite <- F, length_firstn. lia. }
      eapply N.lt_le_trans; [exact B|]. apply N.pow_le_mono_r; lia.
Qed.

(** X17. The byte form of a [TransactionIndex]: [Bytes] never panics, and
    for an index below 2^64 [BytesToTransactionIndex] and [UnmarshalNil]
    read the index back from it, whatever the receiver held; the same
    bytes followed by anything more are refused by [UnmarshalNil] and make
    [SetBytes] panic, as does the empty input. *)
Theorem TransactionIndex_roundtrip (ti : TransactionIndex) :
  ti < 2 ^ 64 ->
  exists b,
    TransactionIndex_Bytes ti = Ret b
    /\ BytesToTransactionIndex b = Ret ti
    /\ (forall old, TransactionIndex_UnmarshalNil old b = (ti, None))
    /\ (forall old x extra,
          snd (TransactionIndex_UnmarshalNil old (b ++ x :: extra)) = Some ErrRLP
          /\ exists msg, TransactionIndex_SetBytes old (b ++ x :: extra) = Panic msg)
    /\ (forall old,
          TransactionIndex_UnmarshalNil old [] = (old, Some ErrRLP)
          /\ exists msg, TransactionIndex_SetBytes old [] = Panic msg).
Proof.
  intros H. exists (rlp_uint ti).
  assert (R : forall rest, rlp_read_uint 8 (rlp_uint ti ++ rest) = Some (ti, rest)).
  { intros rest. apply rlp_read_uint_encoded; [lia | exact H]. }
  assert (U : forall old, TransactionIndex_UnmarshalNil old (rlp_uint ti) = (ti, None)).
  { intros old. unfold TransactionIndex_UnmarshalNil, rlp_DecodeBytes_uint64.
    rewrite <- (app_nil_r (rlp_uint ti)), R. reflexivity. }
  split; [reflexivity|]. split; [|split; [exact U|split]].
  - unfold BytesToTransactionIndex, TransactionIndex_SetBytes. rewrite U. reflexivity.
  - intros old x extra.
    unfold TransactionIndex_SetBytes, TransactionIndex_UnmarshalNil,
      rlp_DecodeBytes_uint64. rewrite R. cbn [snd].
    split; [reflexivity | eexists; reflexivity].
  - intros old. split; [reflexivity | eexists; reflexivity].
Qed.

Lemma TransactionIndex_roundtrip_witness :
  exists b,
    TransactionIndex_Bytes 1024 = Ret b /\ BytesToTransactionIndex b = Ret 1024.
Proof.
  destruct (TransactionIndex_roundtrip 1024 eq_refl) as (b & B & R & _).
  exists b. split; assumption.
Defined.

(** X18. The binary form of the flags: for every flag byte,
    [DecodeRLP] reads from a stream that starts with the output of
    [EncodeRLP] the same flags and leaves the rest of the stream, whatever
    the receiver held; when [DecodeRLP] fails the receiver keeps its value;
    when it succeeds the receiver holds a value below 256. *)
Theorem TransactionFlags_rlp_roundtrip (f v0 : TransactionFlags) (r : bytes) :
  (Bits f < 256 ->
   TransactionFlags_DecodeRLP v0 (TransactionFlags_EncodeRLP f ++ r) = (f, r, None))
  /\ (snd (TransactionFlags_DecodeRLP v0 r) <> None ->
      fst (fst (TransactionFlags_DecodeRLP v0 r)) = v0)
  /\ (snd (TransactionFlags_DecodeRLP v0 r) = None ->
      Bits (fst (fst (TransactionFlags_DecodeRLP v0 r))) < 256).
Proof.
  unfold TransactionFlags_DecodeRLP, TransactionFlags_EncodeRLP.
  split; [|split].
  - intros H. rewrite rlp_read_uint_encoded; [|lia|exact H].
    destruct f; reflexivity.
  - destruct (rlp_read_uint 1 r) as [[bits rest]|]; cbn [fst snd];
      [intros H; exfalso; apply H; reflexivity | reflexivity].
  - destruct (rlp_read_uint 1 r) as [[bits rest]|] eqn:E; cbn [fst snd Bits];
      [|discriminate].
    intros _. apply (rlp_read_uint_bound 1 r rest bits); [lia | exact E].
Qed.

Lemma TransactionFlags_rlp_roundtrip_witness :
  TransactionFlags_DecodeRLP (mkBits 1)
    (TransactionFlags_EncodeRLP (mkBits 200) ++ [Byte.x07])
  = (mkBits 200, [Byte.x07], None)
  /\ fst (fst (TransactionFlags_DecodeRLP (mkBits 1) [Byte.x82; Byte.x01; Byte.x00]))
     = mkBits 1.
Proof.
  split.
  - apply (TransactionFlags_rlp_roundtrip (mkBits 200) (mkBits 1) [Byte.x07]).
    reflexivity.
  - apply (TransactionFlags_rlp_roundtrip (mkBits 0) (mkBits 1)
             [Byte.x82; Byte.x01; Byte.x00]). discriminate.
Defined.

(** ** The canonical bytes of an external transaction *)

Lemma rlp_string_nonempty (s rest : bytes) :
  blen s < 2 ^ 64 -> rlp_string s ++ rest <> [].
Proof.
  intros H E. pose proof (rlp_split_string s rest H) as S.
  rewrite E in S. discriminate.
Qed.

Lemma external_payload_length (x : ExternalTransaction.t) :
  wfExternal x ->
  blen (concat ([rlp_uint (ExternalTransaction.Kind x);
                 FeePack_rlp (ExternalTransaction.FeePack x);
                 rlp_string (ExternalTransaction.To x);
                 rlp_uint (ExternalTransaction.ChainId x);
                 rlp_uint (ExternalTransaction.Seqno x);
                 rlp_string (ExternalTransaction.Data x)]
                ++ rlp_optional
                     [(isNil (ExternalTransaction.AuthData x),
                       rlp_string (ExternalTransaction.AuthData x))])) < 2 ^ 64.
Proof.
  intros (Hk & Ha & Hb & Hc & Ht & Hch & Hs & Hd & Hau).
  rewrite concat_app. cbn [concat]. rewrite !blen_app. change (blen []) with 0.
  pose proof (rlp_uint_length 1 _ ltac:(cbn; lia) Hk).
  pose proof (FeePack_payload_length _ Ha Hb Hc) as Lp.
  pose proof (rlp_list_length
                [rlp_uint (FeePack.FeeCredit (ExternalTransaction.FeePack x));
                 rlp_uint (FeePack.MaxPriorityFeePerGas (ExternalTransaction.FeePack x));
                 rlp_uint (FeePack.MaxFeePerGas (ExternalTransaction.FeePack x))]
                ltac:(lia)) as Lf.
  fold (FeePack_rlp (ExternalTransaction.FeePack x)) in Lf.
  assert (Ht' : blen (ExternalTransaction.To x) = 20)
    by (unfold blen; rewrite Ht; reflexivity).
  pose proof (rlp_string_length (ExternalTransaction.To x) ltac:(lia)).
  pose proof (rlp_uint_length 8 _ ltac:(cbn; lia) Hch).
  pose proof (rlp_uint_length 8 _ ltac:(cbn; lia) Hs).
  pose proof (rlp_string_length (ExternalTransaction.Data x) ltac:(lia)).
  pose proof (rlp_string_length (ExternalTransaction.AuthData x) ltac:(lia)).
  assert (Lo : blen (concat (rlp_optional
                 [(isNil (ExternalTransaction.AuthData x),
                   rlp_string (ExternalTransaction.AuthData x))]))
               <= blen (rlp_string (ExternalTransaction.AuthData x))).
  { cbn [rlp_optional]. destruct (isNil (ExternalTransaction.AuthData x)); cbn [concat].
    - change (blen []) with 0. lia.
    - rewrite app_nil_r. lia. }
  change (N.of_nat 1) with 1 in *. change (N.of_nat 8) with 8 in *. lia.
Qed.

(** X19. The canonical bytes of an external transaction, which [Hash]
    feeds to Keccak-256, determine the transaction: two external
    transactions with fields in the ranges of their types and the same
    [MarshalNil] bytes are equal in Kind, FeePack, To, ChainId, Seqno, Data
    and AuthData, an absent AuthData included. *)
Theorem ExternalTransaction_MarshalNil_inj (x1 x2 : ExternalTransaction.t) :
  wfExternal x1 -> wfExternal x2 ->
  ExternalTransaction_MarshalNil x1 = ExternalTransaction_MarshalNil x2 -> x1 = x2.
Proof.
  intros W1 W2 E.
  pose proof (external_payload_length x1 W1) as L1.
  pose proof (external_payload_length x2 W2) as L2.
  destruct W1 as (Hk1 & Ha1 & Hb1 & Hc1 & Ht1 & Hch1 & Hs1 & Hd1 & Hau1).
  destruct W2 as (Hk2 & Ha2 & Hb2 & Hc2 & Ht2 & Hch2 & Hs2 & Hd2 & Hau2).
  unfold ExternalTransaction_MarshalNil in E.
  assert (E' := f_equal (fun l => l ++ []) E). cbn beta in E'.
  apply rlp_list_inj in E'; [|assumption|assumption].
  destruct E' as [P _]. rewrite !concat_app in P. cbn [concat] in P.
  rewrite <- !app_assoc in P.
  apply (rlp_uint_inj 1) in P; [|cbn; lia|assumption|assumption].
  destruct P as [Ekind P].
  apply FeePack_rlp_inj in P; try assumption.
  destruct P as [Efee P].
  apply rlp_string_inj in P; [|unfold blen; rewrite Ht1; cbn; lia
                              |unfold blen; rewrite Ht2; cbn; lia].
  destruct P as [Eto P].
  apply (rlp_uint_inj 8) in P; [|cbn; lia|assumption|assumption].
  destruct P as [Echain P].
  apply (rlp_uint_inj 8) in P; [|cbn; lia|assumption|assumption].
  destruct P as [Eseq P].
  apply rlp_string_inj in P; [|lia|lia].
  destruct P as [Edata P]. cbn [app] in P.
  assert (Eauth : ExternalTransaction.AuthData x1 = ExternalTransaction.AuthData x2).
  { cbn [rlp_optional] in P.
    destruct (ExternalTransaction.AuthData x1) as [|a1 l1] eqn:A1;
    destruct (ExternalTransaction.AuthData x2) as [|a2 l2] eqn:A2;
    cbn [isNil concat] in P.
    - reflexivity.
    - exfalso. symmetry in P. revert P. apply rlp_string_nonempty. lia.
    - exfalso. revert P. apply rlp_string_nonempty. lia.
    - apply rlp_string_inj in P; [|lia|lia]. apply P. }
  destruct x1, x2. cbn in *. congruence.
Qed.

Lemma ExternalTransaction_MarshalNil_inj_witness :
  wfExternal demoExt /\ wfExternal demoExtResponse
  /\ demoExt = demoExt
  /\ ExternalTransaction_MarshalNil demoExt
     <> ExternalTransaction_MarshalNil demoExtResponse.
Proof.
  assert (W1 : wfExternal demoExt) by (vm_compute; repeat split).
  assert (W2 : wfExternal demoExtResponse) by (vm_compute; repeat split).
  split; [exact W1|]. split; [exact W2|]. split.
  - apply (ExternalTransaction_MarshalNil_inj demoExt demoExt W1 W1 eq_refl).
  - intros E.
    apply (ExternalTransaction_MarshalNil_inj demoExt demoExtResponse W1 W2) in E.
    discriminate.
Defined.

Section FurtherSigning.
Variable Keccak256 : bytes -> Hash.
Variable PrivateKey : Type.
Variable crypto_Sign : bytes -> PrivateKey -> bytes * option error.

(** X20. [ExternalTransaction.Sign] changes nothing but AuthData, on which
    the signing hash does not depend: after the call the signing hash is
    the one that was signed; if the signer fails the receiver is unchanged;
    if it succeeds AuthData is what the signer gave for the signing hash;
    and signing the result again with the same key gives the same result. *)
Theorem ExternalTransaction_Sign_effect (x x' : ExternalTransaction.t)
  (key : PrivateKey) (e : option error) :
  ExternalTransaction_Sign Keccak256 PrivateKey crypto_Sign x key = (x', e) ->
  (ExternalTransaction.Kind x' = ExternalTransaction.Kind x
   /\ ExternalTransaction.FeePack x' = ExternalTransaction.FeePack x
   /\ ExternalTransaction.To x' = ExternalTransaction.To x
   /\ ExternalTransaction.ChainId x' = ExternalTransaction.ChainId x
   /\ ExternalTransaction.Seqno x' = ExternalTransaction.Seqno x
   /\ ExternalTransaction.Data x' = ExternalTransaction.Data x)
  /\ ExternalTransaction_SigningHash Keccak256 x'
     = ExternalTransaction_SigningHash Keccak256 x
  /\ (e <> None -> x' = x)
  /\ (e = None ->
      crypto_Sign (fst (ExternalTransaction_SigningHash Keccak256 x)) key
      = (ExternalTransaction.AuthData x', None))
  /\ ExternalTransaction_Sign Keccak256 PrivateKey crypto_Sign x' key = (x', e).
Proof.
  unfold ExternalTransaction_Sign, ExternalTransaction_SigningHash. cbn [fst].
  destruct (crypto_Sign _ key) as [sig [err|]] eqn:S; intros H; injection H as <- <-.
  - rewrite S. repeat split; try reflexivity. intros H. discriminate.
  - cbn [setAuthData ExternalTransaction.Kind ExternalTransaction.FeePack
         ExternalTransaction.To ExternalTransaction.ChainId ExternalTransaction.Seqno
         ExternalTransaction.Data ExternalTransaction.AuthData].
    rewrite S. cbn [setAuthData ExternalTransaction.Kind ExternalTransaction.FeePack
         ExternalTransaction.To ExternalTransaction.ChainId ExternalTransaction.Seqno
         ExternalTransaction.Data ExternalTransaction.AuthData].
    split; [repeat split|]. split; [reflexivity|].
    split; [intros H; exfalso; apply H; reflexivity|].
    split; reflexivity.
Qed.

End FurtherSigning.

Lemma ExternalTransaction_Sign_effect_witness :
  exists x',
    ExternalTransaction_Sign demoHash unit demoSign demoExt tt = (x', None)
    /\ ExternalTransaction_SigningHash demoHash x'
       = ExternalTransaction_SigningHash demoHash demoExt.
Proof.
  eexists. split; [reflexivity|].
  apply (ExternalTransaction_Sign_effect demoHash unit demoSign demoExt _ tt None).
  reflexivity.
Defined.
